(** * canmonitor.source_handler: reading CAN frames from a serial line or a candump file

    A shallow embedding of [src/canmonitor/source_handler.py] and the
    properties of its two decoders, [SerialHandler._parse] and
    [CandumpHandler._parse_from_candump].

    Conventions of the embedding.
    - A Python [bytes] value is a list of 8-bit characters.  A Python [str]
      is represented by the list of the bytes of its UTF-8 encoding: the
      capture pattern only ever tests characters against ASCII classes and
      against "any character but newline", and no byte of a multi-byte
      UTF-8 sequence is an ASCII character, so matching, stripping and
      formatting commute with the encoding.
    - A Python [int] is a [Z]; a Python [float] is a binary64 [float].
    - A call either returns a value or raises an exception ([result]);
      methods of [CandumpHandler] also thread the object's attributes. *)

From Stdlib Require Import List Ascii String DecimalString DecimalN HexadecimalN ZArith Bool Lia Arith.
From Stdlib Require Import Floats.PrimFloat Numbers.Cyclic.Int63.Uint63.
Import ListNotations.

Local Open Scope string_scope.
Local Open Scope Z_scope.
Local Open Scope list_scope.

(** ** Python values *)

Abbreviation str := (list ascii) (only parsing).
Abbreviation bytes := (list ascii) (only parsing).

Coercion list_ascii_of_string : string >-> list.

Inductive exn : Type :=
| InvalidFrame (msg : str)
| IndexError (msg : str)
| ValueError (msg : str)
| OverflowError (msg : str)
| ZeroDivisionError (msg : str)
| AttributeError (msg : str)
| EOFError.

Inductive result (A : Type) : Type :=
| Return (a : A)
| Raise (e : exn).

Arguments Return {A} a.
Arguments Raise {A} e.

Definition bind {A B : Type} (m : result A) (k : A -> result B) : result B :=
  match m with
  | Return a => k a
  | Raise e => Raise e
  end.

Notation "x <- m ;; k" := (bind m (fun x => k))
  (at level 61, m at next level, right associativity).

(** ** Characters *)

Definition chr_eqb (a b : ascii) : bool := Ascii.eqb a b.

Definition ord (c : ascii) : Z := Z.of_N (N_of_ascii c).

Definition chr (n : Z) : ascii := ascii_of_N (Z.to_N n).

Definition in_range (lo hi c : ascii) : bool :=
  (ord lo <=? ord c) && (ord c <=? ord hi).

(** [Py_ISSPACE]: space, and the control characters 9 to 13. *)
Definition is_space (c : ascii) : bool :=
  chr_eqb c " " || ((9 <=? ord c) && (ord c <=? 13)).

(** [_PyLong_DigitValue]: the value of a character as a digit in bases up
    to 36, for both cases of letters. *)
Definition digit_value (c : ascii) : option Z :=
  if in_range "0" "9" c then Some (ord c - 48)
  else if in_range "a" "z" c then Some (ord c - 97 + 10)
  else if in_range "A" "Z" c then Some (ord c - 65 + 10)
  else None.

Definition is_digit_in (base : Z) (c : ascii) : bool :=
  match digit_value c with
  | Some d => d <? base
  | None => false
  end.

(** ** Sequences *)

Fixpoint lstrip (p : ascii -> bool) (s : str) : str :=
  match s with
  | c :: s' => if p c then lstrip p s' else s
  | [] => []
  end.

Fixpoint rstrip (p : ascii -> bool) (s : str) : str :=
  match s with
  | c :: s' =>
      match rstrip p s' with
      | [] => if p c then [] else [c]
      | r => c :: r
      end
  | [] => []
  end.

(** [s.strip()] with no argument, and [s.strip(chars)] for one character. *)
Definition strip (p : ascii -> bool) (s : str) : str := rstrip p (lstrip p s).

Definition endswith (s : str) (c : ascii) : bool :=
  match rev s with
  | d :: _ => chr_eqb d c
  | [] => false
  end.

(** [s.split(sep, maxsplit)] for a separator of one character. *)
Fixpoint find_sep (sep : ascii) (s : str) : option (str * str) :=
  match s with
  | [] => None
  | c :: s' =>
      if chr_eqb c sep then Some ([], s')
      else match find_sep sep s' with
           | Some (before, after) => Some (c :: before, after)
           | None => None
           end
  end.

Fixpoint split (sep : ascii) (maxsplit : nat) (s : str) : list str :=
  match maxsplit with
  | O => [s]
  | S m =>
      match find_sep sep s with
      | Some (before, after) => before :: split sep m after
      | None => [s]
      end
  end.

(** [s.replace(old, new)] for [old] of one character. *)
Fixpoint replace (old : ascii) (new : str) (s : str) : str :=
  match s with
  | [] => []
  | c :: s' => if chr_eqb c old then new ++ replace old new s'
               else c :: replace old new s'
  end.

(** [l[i]] on a list. *)
Definition getitem {A : Type} (l : list A) (i : nat) : result A :=
  match nth_error l i with
  | Some a => Return a
  | None => Raise (IndexError "list index out of range")
  end.

(** [s[n:]]. *)
Definition slice_from (n : nat) (s : str) : str := skipn n s.

(** ** [repr] of a bytes object, as [str.format] prints it *)

Definition hex_digit (n : Z) : ascii :=
  if n <? 10 then chr (48 + n) else chr (97 + n - 10).

Definition repr_byte (quote : ascii) (c : ascii) : str :=
  if chr_eqb c quote || chr_eqb c "\" then ["\"%char; c]
  else if chr_eqb c "009" then "\t"
  else if chr_eqb c "010" then "\n"
  else if chr_eqb c "013" then "\r"
  else if (ord c <? 32) || (127 <=? ord c)
       then ["\"%char; "x"%char; hex_digit (ord c / 16); hex_digit (ord c mod 16)]
  else [c].

Definition bytes_repr (s : bytes) : str :=
  let quote : ascii :=
    if existsb (chr_eqb "'") s && negb (existsb (chr_eqb "034") s)
    then "034"%char else "'"%char in
  "b" ++ [quote] ++ flat_map (repr_byte quote) s ++ [quote].

(** ** [int(x)] and [int(x, 16)]

    The scan of [PyLong_FromString]: leading white space, one optional
    sign, for base 16 an optional [0x] prefix that one underscore may
    follow, then digits with single underscores between them, then
    trailing white space up to the end of the argument.  In a base that
    is not a power of two, a literal of more digits than
    [sys.get_int_max_str_digits()], 4300 unless the interpreter is set up
    otherwise, is refused with a [ValueError] of its own, once the digits
    have been scanned and before what follows them is looked at. *)

Definition int_max_str_digits : nat := 4300.

Definition exceeds_digit_limit (base : Z) (digits : nat) : bool :=
  negb (Z.land base (base - 1) =? 0) && (int_max_str_digits <? digits)%nat.

Inductive int_error : Type :=
| InvalidLiteral
| ExceedsLimit (digits : nat).

Definition str_of_nat (n : nat) : str :=
  list_ascii_of_string (DecimalString.NilZero.string_of_uint (Nat.to_uint n)).

Fixpoint long_from_string_base (base : Z) (p : str) (prev_underscore : bool)
    (acc : Z) (digits : nat) : option (Z * nat * str) :=
  let stop := if prev_underscore then None else Some (acc, digits, p) in
  match p with
  | c :: p' =>
      if chr_eqb c "_" then
        if prev_underscore then None
        else long_from_string_base base p' true acc digits
      else
        match digit_value c with
        | Some d =>
            if d <? base
            then long_from_string_base base p' false (acc * base + d) (S digits)
            else stop
        | None => stop
        end
  | [] => stop
  end.

Definition skip_sign (s : str) : Z * str :=
  match s with
  | c :: s' =>
      if chr_eqb c "+" then (1, s')
      else if chr_eqb c "-" then (-1, s')
      else (1, s)
  | [] => (1, s)
  end.

Definition skip_prefix (base : Z) (s : str) : str :=
  match s with
  | c0 :: c1 :: s' =>
      if chr_eqb c0 "0" && (base =? 16) && (chr_eqb c1 "x" || chr_eqb c1 "X")
      then match s' with
           | u :: s'' => if chr_eqb u "_" then s'' else s'
           | [] => s'
           end
      else s
  | _ => s
  end.

Definition PyLong_FromString_or_error (base : Z) (s : str) : Z + int_error :=
  let s := lstrip is_space s in
  let (sign, s) := skip_sign s in
  let s := skip_prefix base s in
  match s with
  | c :: _ =>
      if chr_eqb c "_" then inr InvalidLiteral
      else
        match long_from_string_base base s false 0 O with
        | Some (z, S n, rest) =>
            if exceeds_digit_limit base (S n) then inr (ExceedsLimit (S n))
            else
              match lstrip is_space rest with
              | [] => inl (sign * z)
              | _ :: _ => inr InvalidLiteral
              end
        | _ => inr InvalidLiteral
        end
  | [] => inr InvalidLiteral
  end.

(** The integer, when there is one. *)
Definition PyLong_FromString (base : Z) (s : str) : option Z :=
  match PyLong_FromString_or_error base s with
  | inl z => Some z
  | inr _ => None
  end.

(** The text of the [ValueError] for an argument that [int] refuses;
    [shown] is the argument as the message shows it. *)
Definition int_error_text (base : Z) (base_text shown x : str) : str :=
  match PyLong_FromString_or_error base x with
  | inr (ExceedsLimit digits) =>
      "Exceeds the limit (4300 digits) for integer string conversion: value has "
        ++ str_of_nat digits
        ++ " digits; use sys.set_int_max_str_digits() to increase the limit"
  | _ => "invalid literal for int() with base " ++ base_text ++ ": " ++ shown
  end.

(** [int(x)] on a bytes object. *)
Definition int_of_bytes (x : bytes) : result Z :=
  match PyLong_FromString 10 x with
  | Some z => Return z
  | None => Raise (ValueError (int_error_text 10 "10" (bytes_repr x) x))
  end.

(** [int(x, 16)] on a str. *)
Definition int_base16 (x : str) : result Z :=
  match PyLong_FromString 16 x with
  | Some z => Return z
  | None => Raise (ValueError (int_error_text 16 "16" ("'" ++ x ++ "'") x))
  end.

(** ** [binascii.unhexlify] *)

Definition hex_pair (a b : ascii) : option ascii :=
  match digit_value a, digit_value b with
  | Some hi, Some lo =>
      if (hi <? 16) && (lo <? 16) then Some (chr (hi * 16 + lo)) else None
  | _, _ => None
  end.

Fixpoint unhex_pairs (s : bytes) : option bytes :=
  match s with
  | [] => Some []
  | a :: b :: s' =>
      match hex_pair a b with
      | Some c =>
          match unhex_pairs s' with
          | Some r => Some (c :: r)
          | None => None
          end
      | None => None
      end
  | [_] => None
  end.

(** [binascii.Error] is a subclass of [ValueError]. *)
Definition unhexlify (hexstr : bytes) : result bytes :=
  if Nat.odd (List.length hexstr) then Raise (ValueError "Odd-length string")
  else match unhex_pairs hexstr with
       | Some data => Return data
       | None => Raise (ValueError "Non-hexadecimal digit found")
       end.

(** ** SerialHandler *)

Module SerialHandler.

(** [_parse(line)]: the body of the [try] first, then the handler for
    [IndexError] and [ValueError], then the length check. *)
Definition _parse_try (line : bytes) : result (Z * Z * bytes) :=
  let frame := split ":" 3 line in
  f1 <- getitem frame 1 ;;
  frame_id <- int_of_bytes (slice_from 3 f1) ;;
  f2 <- getitem frame 2 ;;
  frame_length <- int_of_bytes (slice_from 4 f2) ;;
  f3 <- getitem frame 3 ;;
  let hex_data := replace ":" [] f3 in
  data <- unhexlify hex_data ;;
  Return (frame_id, frame_length, data).

Definition _parse (line : bytes) : result (Z * bytes) :=
  match _parse_try line with
  | Raise (IndexError _) | Raise (ValueError _) =>
      Raise (InvalidFrame ("Invalid frame " ++ bytes_repr line))
  | Raise e => Raise e
  | Return (frame_id, frame_length, data) =>
      if negb (Z.of_nat (List.length data) =? frame_length)
      then Raise (InvalidFrame
                    ("Wrong frame length or invalid data: " ++ bytes_repr line))
      else Return (frame_id, data)
  end.

(** The serial device, opened with [timeout=0], as the sequence of the
    results of its successive [readline()] calls: each is what had arrived,
    up to and including the first newline if there is one.  The loop of
    [_read_until_newline] polls until the accumulated line ends with a
    newline; [None] stands for a device that never delivers one (the
    source loop then never returns). *)
Fixpoint read_loop (line : bytes) (pending : list bytes) : option (bytes * list bytes) :=
  if endswith line "010" then Some (line, pending)
  else match pending with
       | [] => None
       | chunk :: pending' => read_loop (line ++ chunk) pending'
       end.

Definition _read_until_newline (serial_device : list bytes) : option (bytes * list bytes) :=
  match serial_device with
  | [] => None
  | chunk :: pending =>
      match read_loop chunk pending with
      | Some (line, rest) => Some (strip is_space line, rest)
      | None => None
      end
  end.

Definition get_message (serial_device : list bytes)
  : option (result (Z * bytes) * list bytes) :=
  match _read_until_newline serial_device with
  | Some (line, rest) => Some (_parse line, rest)
  | None => None
  end.

End SerialHandler.

(** ** The [re] engine on the patterns this module uses

    A pattern is a sequence of items; an item is a set of characters with
    a greedy quantifier, and may be a capture group.  A greedy quantifier
    first takes the longest run of characters of its set and gives back
    one character at a time until the rest of the pattern matches; the
    first success is the match.  [re.match] anchors the pattern at the
    start of the string and lets anything follow the match. *)

Inductive quantifier : Type := Once | ZeroOrMore | OneOrMore.

Record item : Type := Item {
  chars : ascii -> bool;
  quant : quantifier;
  captured : bool
}.

Definition pattern := list item.

Fixpoint run_length (p : ascii -> bool) (s : str) : nat :=
  match s with
  | c :: s' => if p c then S (run_length p s') else O
  | [] => O
  end.

(** Tries to continue after taking [k], [k-1], ..., [lo] characters. *)
Fixpoint backtrack {A : Type} (cont : str -> option A) (s : str) (lo k : nat)
  : option (nat * A) :=
  if (k <? lo)%nat then None
  else match cont (skipn k s) with
       | Some r => Some (k, r)
       | None =>
           match k with
           | O => None
           | S k' => backtrack cont s lo k'
           end
       end.

Definition capture (it : item) (text : str) (groups : list str) : list str :=
  if captured it then text :: groups else groups.

Fixpoint re_match (re : pattern) (s : str) : option (list str) :=
  match re with
  | [] => Some []
  | it :: re' =>
      match quant it with
      | Once =>
          match s with
          | c :: s' =>
              if chars it c
              then option_map (capture it [c]) (re_match re' s')
              else None
          | [] => None
          end
      | ZeroOrMore =>
          match backtrack (re_match re') s 0 (run_length (chars it) s) with
          | Some (k, groups) => Some (capture it (firstn k s) groups)
          | None => None
          end
      | OneOrMore =>
          match backtrack (re_match re') s 1 (run_length (chars it) s) with
          | Some (k, groups) => Some (capture it (firstn k s) groups)
          | None => None
          end
      end
  end.

Definition lit (c : ascii) : item := Item (chr_eqb c) Once false.

Definition dot_or_digit (c : ascii) : bool := chr_eqb c "." || in_range "0" "9" c.

Definition upper_hex (c : ascii) : bool := in_range "0" "9" c || in_range "A" "F" c.

(** [.] without [re.DOTALL]. *)
Definition any_char (c : ascii) : bool := negb (chr_eqb c "010").

(** ** [float(x)] on a string of dots and digits

    Group 1 of the capture pattern holds dots and digits only
    ([MSG_RE_groups]), and on such strings [float] accepts exactly the
    literals with at most one dot and at least one digit, and returns the
    binary64 value nearest to the decimal one, ties to even.  Strings with
    other characters never reach the call and are rejected here. *)

Definition is_decimal (c : ascii) : bool := in_range "0" "9" c.

Definition decimal_value (s : str) : Z :=
  fold_left (fun acc c => acc * 10 + (ord c - 48)) s 0.

(** The integer nearest to [n / d], ties to even, for [0 <= n] and [0 < d]. *)
Definition round_half_even (n d : Z) : Z :=
  let q := n / d in
  let r := n mod d in
  if 2 * r <? d then q
  else if d <? 2 * r then q + 1
  else if Z.even q then q else q + 1.

(** The binary64 value nearest to [n / d], for [0 <= n] and [0 < d]. *)
Definition float_of_ratio (n d : Z) : float :=
  if n =? 0 then PrimFloat.zero
  else
    let l := Z.log2 n - Z.log2 d in
    let floor_log2 :=
      if d * 2 ^ Z.max 0 l <=? n * 2 ^ Z.max 0 (- l) then l else l - 1 in
    let e := Z.max (floor_log2 - 52) (-1074) in
    let m := round_half_even (n * 2 ^ Z.max 0 (- e)) (d * 2 ^ Z.max 0 e) in
    if (971 <? e) || ((e =? 971) && (2 ^ 53 <=? m)) then PrimFloat.infinity
    else PrimFloat.ldshiftexp (PrimFloat.of_uint63 (Uint63.of_Z m))
                              (Uint63.of_Z (e + 2101)).

Definition float_of_str (x : str) : result float :=
  let error :=
    Raise (ValueError ("could not convert string to float: '" ++ x ++ "'")) in
  let int_part := firstn (run_length is_decimal x) x in
  match skipn (run_length is_decimal x) x with
  | [] =>
      match int_part with
      | [] => error
      | _ :: _ => Return (float_of_ratio (decimal_value int_part) 1)
      end
  | c :: frac_part =>
      if chr_eqb c "." && forallb is_decimal frac_part
         && negb ((List.length int_part + List.length frac_part =? 0)%nat)
      then Return (float_of_ratio (decimal_value (int_part ++ frac_part))
                                  (10 ^ Z.of_nat (List.length frac_part)))
      else error
  end.

(** ** [time.sleep(secs)]

    [_PyTime_FromSecondsObject] rejects a NaN, then a duration whose count
    of nanoseconds does not fit a signed 64-bit integer; [time.sleep] then
    rejects a negative duration (the count of nanoseconds is rounded away
    from zero, so its sign is that of [secs]).  Otherwise the thread is
    suspended for [secs] seconds.  The model has no clock: a duration so
    close to the bound that the deadline itself overflows, which the
    operating system refuses, counts as slept. *)
Definition time_sleep (secs : float) : result unit :=
  if PrimFloat.is_nan secs
  then Raise (ValueError "Invalid value NaN (not a number)")
  else
    let ns := PrimFloat.mul secs 1e9%float in
    if negb (PrimFloat.leb (-0x1p63)%float ns && PrimFloat.ltb ns 0x1p63%float)
    then Raise (OverflowError "timestamp too large to convert to C _PyTime_t")
    else if PrimFloat.ltb secs 0%float
    then Raise (ValueError "sleep length must be non-negative")
    else Return tt.

(** ** [bytes.fromhex(x)]

    White space is skipped between pairs of hexadecimal digits; the error
    carries the position of the offending character (the position past
    the end when the last pair lacks its second digit). *)

Definition hex_value (c : ascii) : option Z :=
  match digit_value c with
  | Some d => if d <? 16 then Some d else None
  | None => None
  end.

Fixpoint fromhex_at (pos : nat) (s : str) : bytes + nat :=
  match s with
  | [] => inl []
  | c :: s' =>
      if is_space c then fromhex_at (S pos) s'
      else
        match hex_value c with
        | None => inr pos
        | Some top =>
            match s' with
            | [] => inr (S pos)
            | d :: s'' =>
                match hex_value d with
                | None => inr (S pos)
                | Some bot =>
                    match fromhex_at (S (S pos)) s'' with
                    | inl data => inl (chr (top * 16 + bot) :: data)
                    | inr p => inr p
                    end
                end
            end
        end
  end.

Definition bytes_fromhex (x : str) : result bytes :=
  match fromhex_at 0 x with
  | inl data => Return data
  | inr pos =>
      Raise (ValueError ("non-hexadecimal number found in fromhex() arg at position "
                           ++ str_of_nat pos))
  end.

(** ** CandumpHandler *)

Module CandumpHandler.

(** The attributes of the object, and [slept]: the durations of the
    suspensions performed so far, oldest first ([time.sleep]'s effect on
    the world).  [file_object] is [None] before [open()]; after it, it
    holds the text that remains to be read. *)
Record t : Type := mk {
  file_path : str;
  file_object : option str;
  speed_scale : float;
  clock : float;
  slept : list float
}.

(** A method body: it reads and updates the object, and returns or raises. *)
Definition M (A : Type) : Type := t -> result A * t.

Definition ret {A : Type} (a : A) : M A := fun self => (Return a, self).

Definition raise {A : Type} (e : exn) : M A := fun self => (Raise e, self).

Definition bindM {A B : Type} (m : M A) (k : A -> M B) : M B :=
  fun self =>
    match m self with
    | (Return a, self') => k a self'
    | (Raise e, self') => (Raise e, self')
    end.

Definition lift {A : Type} (r : result A) : M A := fun self => (r, self).

Definition get {A : Type} (f : t -> A) : M A := fun self => (Return (f self), self).

Definition set_file_object (v : option str) : M unit :=
  fun self => (Return tt, mk (file_path self) v (speed_scale self) (clock self) (slept self)).

Definition set_clock (v : float) : M unit :=
  fun self => (Return tt, mk (file_path self) (file_object self) (speed_scale self) v (slept self)).

Definition sleep (secs : float) : M unit :=
  fun self =>
    match time_sleep secs with
    | Return _ =>
        (Return tt, mk (file_path self) (file_object self) (speed_scale self)
                       (clock self) (slept self ++ [secs]))
    | Raise e => (Raise e, self)
    end.

Notation "x <- m ;;; k" := (bindM m (fun x => k))
  (at level 61, m at next level, right associativity).
Notation "m ;;; k" := (bindM m (fun _ => k))
  (at level 61, right associativity).

(** [MSG_RE]: an opening parenthesis, group 1 (one or more dots and
    digits), a closing parenthesis, any run of characters, a space,
    group 2 (one or more upper-case hexadecimal digits), a hash sign,
    group 3 (any number of upper-case hexadecimal digits). *)
Definition MSG_RE : pattern :=
  [ lit "(";
    Item dot_or_digit OneOrMore true;
    lit ")";
    Item any_char ZeroOrMore false;
    lit " ";
    Item upper_hex OneOrMore true;
    lit "#";
    Item upper_hex ZeroOrMore true ].

(** [__init__(self, file_path, speed_scale=1.0)]: [not speed_scale] holds
    of a zero, and a NaN compares false with everything. *)
Definition __init__ (file_path : str) (speed_scale : float) : t :=
  let speed_scale :=
    if PrimFloat.eqb speed_scale 0%float || PrimFloat.leb speed_scale 0%float
    then 1%float else speed_scale in
  mk file_path None speed_scale 0%float [].

(** [open(self)], given the text of the file at [file_path]. *)
Definition open (text : str) : M unit := set_file_object (Some text).

(** [file_object.readline()]: the text up to and including the first
    newline, or all of it when it has none. *)
Fixpoint readline (text : str) : str * str :=
  match text with
  | [] => ([], [])
  | c :: text' =>
      if chr_eqb c "010" then ([c], text')
      else let (line, rest) := readline text' in (c :: line, rest)
  end.

(** Python divides floats with a check for a zero divisor. *)
Definition float_div (a b : float) : result float :=
  if PrimFloat.eqb b 0%float then Raise (ZeroDivisionError "float division by zero")
  else Return (PrimFloat.div a b).

Definition _parse_from_candump (line : str) : M (Z * bytes) :=
  let line := strip (chr_eqb "010") line in
  match re_match MSG_RE line with
  | Some [abstime; hex_can_id; hex_can_data] =>
      abstime <- lift (float_of_str abstime) ;;;
      now <- get clock ;;;
      scale <- get speed_scale ;;;
      delay <- lift (float_div (PrimFloat.sub abstime now) scale) ;;;
      sleep delay ;;;
      set_clock abstime ;;;
      can_id <- lift (int_base16 hex_can_id) ;;;
      match bytes_fromhex hex_can_data with
      | Return can_data => ret (can_id, can_data)
      | Raise (ValueError err) =>
          raise (InvalidFrame ("Can't decode message '" ++ line ++ "': '" ++ err ++ "'"))
      | Raise e => raise e
      end
  | _ => raise (InvalidFrame ("Wrong format: '" ++ line ++ "'"))
  end.

Definition get_message : M (Z * bytes) :=
  file <- get file_object ;;;
  match file with
  | None => raise (AttributeError "'NoneType' object has no attribute 'readline'")
  | Some text =>
      let (line, rest) := readline text in
      set_file_object (Some rest) ;;;
      match line with
      | [] => raise EOFError
      | _ :: _ => _parse_from_candump line
      end
  end.

End CandumpHandler.

(** ** Vocabulary of the statements *)

(** [sep.join(parts)]. *)
Fixpoint join (sep : str) (parts : list str) : str :=
  match parts with
  | [] => []
  | [p] => p
  | p :: parts' => p ++ sep ++ join sep parts'
  end.

Definition no_char (c : ascii) (s : str) : bool :=
  forallb (fun d => negb (chr_eqb d c)) s.

(** A non-empty string of decimal digits. *)
Definition decimal_literal (s : str) : bool :=
  match s with
  | [] => false
  | _ :: _ => forallb is_decimal s
  end.

(** A literal short enough for [int] in base ten. *)
Definition within_digit_limit (s : str) : bool :=
  (List.length s <=? int_max_str_digits)%nat.

(** A hexadecimal digit of either case, and its value. *)
Definition is_hex (c : ascii) : bool := is_digit_in 16 c.

Definition hex_digit_value (c : ascii) : Z :=
  match digit_value c with
  | Some d => d
  | None => 0
  end.

(** A two-digit hex byte pair, and the byte it denotes. *)
Definition hex_byte_pair (p : str) : bool :=
  match p with
  | [a; b] => is_hex a && is_hex b
  | _ => false
  end.

Definition byte_of_pair (p : str) : ascii :=
  match p with
  | [a; b] => chr (hex_digit_value a * 16 + hex_digit_value b)
  | _ => chr 0
  end.

(** The serial line [FRAME:ID=<n>:LEN=<k>:<pairs>]. *)
Definition serial_line (n k : str) (pairs : list str) : bytes :=
  "FRAME:ID=" ++ n ++ ":LEN=" ++ k ++ ":" ++ join ":" pairs.

(** A serial line with arbitrary text in place of the three markers. *)
Definition unmarked_line (tok0 pre1 pre2 n k : str) (pairs : list str) : bytes :=
  tok0 ++ ":" ++ pre1 ++ n ++ ":" ++ pre2 ++ k ++ ":" ++ join ":" pairs.

(** The ways a serial line can fail to decode.  [tokens] are the (at
    most four) fields between the first three colons. *)
Definition tokens (line : bytes) : list bytes := split ":" 3 line.

Definition is_none {A : Type} (o : option A) : bool :=
  match o with Some _ => false | None => true end.

Definition missing_token (line : bytes) : bool :=
  (List.length (tokens line) <? 4)%nat.

Definition non_numeric_id (line : bytes) : bool :=
  match nth_error (tokens line) 1 with
  | Some f1 => is_none (PyLong_FromString 10 (skipn 3 f1))
  | None => false
  end.

Definition non_numeric_len (line : bytes) : bool :=
  match nth_error (tokens line) 2 with
  | Some f2 => is_none (PyLong_FromString 10 (skipn 4 f2))
  | None => false
  end.

(** The hex digits of the data field, colons removed. *)
Definition data_digits (line : bytes) : option bytes :=
  match nth_error (tokens line) 3 with
  | Some f3 => Some (replace ":" [] f3)
  | None => None
  end.

Definition bad_hex_data (line : bytes) : bool :=
  match data_digits line with
  | Some digits => Nat.odd (List.length digits) || negb (forallb is_hex digits)
  | None => false
  end.

Definition length_differs (line : bytes) : bool :=
  match nth_error (tokens line) 2, data_digits line with
  | Some f2, Some digits =>
      match PyLong_FromString 10 (skipn 4 f2) with
      | Some k => negb (Z.of_nat (Nat.div2 (List.length digits)) =? k)
      | None => false
      end
  | _, _ => false
  end.

(** A byte that [repr] prints as itself. *)
Definition plain_byte (c : ascii) : bool :=
  (32 <=? ord c) && (ord c <? 127)
  && negb (chr_eqb c "'") && negb (chr_eqb c "\").

(** The capture line [(<t>) <iface> <HEXID>#<HEXDATA>]. *)
Definition capture_line (t iface hexid hexdata : str) : str :=
  "(" ++ t ++ ") " ++ iface ++ " " ++ hexid ++ "#" ++ hexdata.

(** [HEXID] read in base 16, and [HEXDATA] read as hex byte pairs. *)
Definition parse_hex (s : str) : Z :=
  fold_left (fun acc c => acc * 16 + hex_digit_value c) s 0.

Fixpoint parse_hex_pairs (s : str) : bytes :=
  match s with
  | a :: b :: s' => chr (hex_digit_value a * 16 + hex_digit_value b) :: parse_hex_pairs s'
  | _ => []
  end.

(** The groups the pattern captures in a line, and the timestamp of the
    line: group 1 converted to a float. *)
Definition groups (line : str) : option (list str) :=
  re_match CandumpHandler.MSG_RE (strip (chr_eqb "010") line).

Definition timestamp (line : str) : option float :=
  match groups line with
  | Some [abstime; _; _] =>
      match float_of_str abstime with
      | Return t => Some t
      | Raise _ => None
      end
  | _ => None
  end.

(** The delay the decoder computes for a line of timestamp [t]. *)
Definition pacing_delay (self : CandumpHandler.t) (t : float) : float :=
  PrimFloat.div (PrimFloat.sub t (CandumpHandler.clock self))
                (CandumpHandler.speed_scale self).

(** The object once the decoder has slept [delay] seconds for a line of
    timestamp [t]. *)
Definition after_sleep (self : CandumpHandler.t) (t delay : float) : CandumpHandler.t :=
  CandumpHandler.mk (CandumpHandler.file_path self) (CandumpHandler.file_object self)
    (CandumpHandler.speed_scale self) t (CandumpHandler.slept self ++ [delay]).

(** Lines of text, each ended by a newline, as a file holds them. *)
Definition unlines (ls : list string) : str :=
  flat_map (fun l => list_ascii_of_string l ++ ["010"%char]) ls.

(** Whether the pacing sleep for a line of timestamp [t] goes through:
    the division is defined and [time.sleep] takes the delay. *)
Definition sleep_accepts (self : CandumpHandler.t) (t : float) : bool :=
  match CandumpHandler.float_div (PrimFloat.sub t (CandumpHandler.clock self))
                                 (CandumpHandler.speed_scale self) with
  | Return delay =>
      match time_sleep delay with
      | Return _ => true
      | Raise _ => false
      end
  | Raise _ => false
  end.

(** *** Vocabulary of the further properties *)

(** The canonical serial line of a frame: decimal identifier, decimal
    length, and the bytes as upper-case hex pairs, as in the sample
    [FRAME:ID=246:LEN=8:8E:62:1C:F6:1E:63:63:20]. *)
Definition str_of_N (n : N) : str :=
  list_ascii_of_string (DecimalString.NilZero.string_of_uint (N.to_uint n)).

Definition upper_hex_digit (n : Z) : ascii :=
  if n <? 10 then chr (48 + n) else chr (65 + n - 10).

Definition pair_of_byte (c : ascii) : str :=
  [upper_hex_digit (ord c / 16); upper_hex_digit (ord c mod 16)].

Definition encode_serial (frame_id : N) (data : bytes) : bytes :=
  serial_line (str_of_N frame_id) (str_of_N (N.of_nat (List.length data)))
    (map pair_of_byte data).

(** The data of a capture line for a payload. *)
Definition hexlify_upper (data : bytes) : str := flat_map pair_of_byte data.

(** A string with the colons taken out. *)
Definition without_colons (s : str) : str :=
  filter (fun c => negb (chr_eqb c ":")) s.

Definition count_char (c : ascii) (s : str) : nat := count_occ ascii_dec s c.

(** What [float] takes among the strings of dots and digits. *)
Definition float_literal (ts : str) : bool :=
  (count_char "." ts <=? 1)%nat && existsb is_decimal ts.

(** The text of a file made of the given lines, each ended by a newline. *)
Definition text_of_lines (ls : list str) : str :=
  flat_map (fun l => l ++ ["010"%char]) ls.

(** A caller's loop: [n] successive calls of [get_message], whatever they
    return or raise; the outcomes, oldest first, and the object after
    them. *)
Fixpoint replay (n : nat) (self : CandumpHandler.t)
  : list (result (Z * bytes)) * CandumpHandler.t :=
  match n with
  | O => ([], self)
  | S n' =>
      let (r, self1) := CandumpHandler.get_message self in
      let (rs, self2) := replay n' self1 in
      (r :: rs, self2)
  end.

Definition is_zero_division {A : Type} (r : result A) : bool :=
  match r with
  | Raise (ZeroDivisionError _) => true
  | _ => false
  end.

(** The value of a decimal numeral read after the digits of value [acc]. *)
Fixpoint uint_value (d : Decimal.uint) (acc : Z) : Z :=
  match d with
  | Decimal.Nil => acc
  | Decimal.D0 d => uint_value d (acc * 10 + 0)
  | Decimal.D1 d => uint_value d (acc * 10 + 1)
  | Decimal.D2 d => uint_value d (acc * 10 + 2)
  | Decimal.D3 d => uint_value d (acc * 10 + 3)
  | Decimal.D4 d => uint_value d (acc * 10 + 4)
  | Decimal.D5 d => uint_value d (acc * 10 + 5)
  | Decimal.D6 d => uint_value d (acc * 10 + 6)
  | Decimal.D7 d => uint_value d (acc * 10 + 7)
  | Decimal.D8 d => uint_value d (acc * 10 + 8)
  | Decimal.D9 d => uint_value d (acc * 10 + 9)
  end.

(** Whether a line, its newlines stripped, opens with a parenthesis. *)
Definition opens_with_paren (line : str) : bool :=
  match strip (chr_eqb "010") line with
  | c :: _ => chr_eqb c "("
  | [] => false
  end.

(** The object with [rest] as what remains to be read. *)
Definition with_file (self : CandumpHandler.t) (rest : str) : CandumpHandler.t :=
  CandumpHandler.mk (CandumpHandler.file_path self) (Some rest)
    (CandumpHandler.speed_scale self) (CandumpHandler.clock self)
    (CandumpHandler.slept self).

(** A duration that is a number and is not negative. *)
Definition proper_duration (d : float) : bool :=
  negb (PrimFloat.is_nan d) && negb (PrimFloat.ltb d 0).

(** The upper-case hexadecimal numeral of an identifier, and the capture
    line of a frame. *)
Fixpoint upper_hex_of_uint (d : Hexadecimal.uint) : str :=
  match d with
  | Hexadecimal.Nil => []
  | Hexadecimal.D0 d => "0"%char :: upper_hex_of_uint d
  | Hexadecimal.D1 d => "1"%char :: upper_hex_of_uint d
  | Hexadecimal.D2 d => "2"%char :: upper_hex_of_uint d
  | Hexadecimal.D3 d => "3"%char :: upper_hex_of_uint d
  | Hexadecimal.D4 d => "4"%char :: upper_hex_of_uint d
  | Hexadecimal.D5 d => "5"%char :: upper_hex_of_uint d
  | Hexadecimal.D6 d => "6"%char :: upper_hex_of_uint d
  | Hexadecimal.D7 d => "7"%char :: upper_hex_of_uint d
  | Hexadecimal.D8 d => "8"%char :: upper_hex_of_uint d
  | Hexadecimal.D9 d => "9"%char :: upper_hex_of_uint d
  | Hexadecimal.Da d => "A"%char :: upper_hex_of_uint d
  | Hexadecimal.Db d => "B"%char :: upper_hex_of_uint d
  | Hexadecimal.Dc d => "C"%char :: upper_hex_of_uint d
  | Hexadecimal.Dd d => "D"%char :: upper_hex_of_uint d
  | Hexadecimal.De d => "E"%char :: upper_hex_of_uint d
  | Hexadecimal.Df d => "F"%char :: upper_hex_of_uint d
  end.

Definition hex_of_N (n : N) : str := upper_hex_of_uint (N.to_hex_uint n).

Definition encode_capture (ts iface : str) (can_id : N) (data : bytes) : str :=
  capture_line ts iface (hex_of_N can_id) (hexlify_upper data).

(** The value of a hexadecimal numeral read after the digits of value [acc]. *)
Fixpoint hex_uint_value (d : Hexadecimal.uint) (acc : Z) : Z :=
  match d with
  | Hexadecimal.Nil => acc
  | Hexadecimal.D0 d => hex_uint_value d (acc * 16 + 0)
  | Hexadecimal.D1 d => hex_uint_value d (acc * 16 + 1)
  | Hexadecimal.D2 d => hex_uint_value d (acc * 16 + 2)
  | Hexadecimal.D3 d => hex_uint_value d (acc * 16 + 3)
  | Hexadecimal.D4 d => hex_uint_value d (acc * 16 + 4)
  | Hexadecimal.D5 d => hex_uint_value d (acc * 16 + 5)
  | Hexadecimal.D6 d => hex_uint_value d (acc * 16 + 6)
  | Hexadecimal.D7 d => hex_uint_value d (acc * 16 + 7)
  | Hexadecimal.D8 d => hex_uint_value d (acc * 16 + 8)
  | Hexadecimal.D9 d => hex_uint_value d (acc * 16 + 9)
  | Hexadecimal.Da d => hex_uint_value d (acc * 16 + 10)
  | Hexadecimal.Db d => hex_uint_value d (acc * 16 + 11)
  | Hexadecimal.Dc d => hex_uint_value d (acc * 16 + 12)
  | Hexadecimal.Dd d => hex_uint_value d (acc * 16 + 13)
  | Hexadecimal.De d => hex_uint_value d (acc * 16 + 14)
  | Hexadecimal.Df d => hex_uint_value d (acc * 16 + 15)
  end.

(** The decoder applied to the lines of a list in turn, each call on the
    object the one before left. *)
Fixpoint decode_lines (ls : list str) (self : CandumpHandler.t)
  : list (result (Z * bytes)) * CandumpHandler.t :=
  match ls with
  | [] => ([], self)
  | l :: ls' =>
      let (r, self1) := CandumpHandler._parse_from_candump l self in
      let (rs, self2) := decode_lines ls' self1 in
      (r :: rs, self2)
  end.

Definition returns {A : Type} (r : result A) : bool :=
  match r with
  | Return _ => true
  | Raise _ => false
  end.

(** ** Properties of the serial decoder *)

Ltac ascii_cases c := destruct c as [[] [] [] [] [] [] [] []].

Lemma is_decimal_facts (c : ascii) :
  is_decimal c = true ->
  chr_eqb c "_" = false /\ chr_eqb c "+" = false /\ chr_eqb c "-" = false /\
  is_space c = false /\ digit_value c = Some (ord c - 48) /\
  (ord c - 48 <? 10) = true.
Proof.
  ascii_cases c; vm_compute; intro H; try discriminate H; repeat split.
Qed.

Lemma is_hex_facts (c : ascii) :
  is_hex c = true ->
  chr_eqb c ":" = false /\ digit_value c = Some (hex_digit_value c) /\
  (hex_digit_value c <? 16) = true.
Proof.
  ascii_cases c; vm_compute; intro H; try discriminate H; repeat split.
Qed.

Lemma find_sep_app (sep : ascii) (a b : str) :
  no_char sep a = true -> find_sep sep (a ++ sep :: b) = Some (a, b).
Proof.
  induction a as [|c a IH]; simpl.
  - intros _. unfold chr_eqb. now rewrite Ascii.eqb_refl.
  - intro H. apply andb_prop in H as [Hc Ha].
    apply negb_true_iff in Hc. rewrite Hc, (IH Ha). reflexivity.
Qed.

Lemma split_four (t0 t1 t2 rest : str) :
  no_char ":" t0 = true -> no_char ":" t1 = true -> no_char ":" t2 = true ->
  split ":" 3 (t0 ++ ":" ++ t1 ++ ":" ++ t2 ++ ":" ++ rest) = [t0; t1; t2; rest].
Proof.
  intros H0 H1 H2. cbn [list_ascii_of_string app split].
  rewrite (find_sep_app _ _ _ H0). cbn [split].
  rewrite (find_sep_app _ _ _ H1). cbn [split].
  rewrite (find_sep_app _ _ _ H2). reflexivity.
Qed.

Lemma long_from_string_base_decimal (ds : str) (acc : Z) (n : nat) :
  forallb is_decimal ds = true ->
  long_from_string_base 10 ds false acc n
  = Some (fold_left (fun a c => a * 10 + (ord c - 48)) ds acc,
          (n + List.length ds)%nat, []).
Proof.
  revert acc n. induction ds as [|c ds IH]; intros acc n H.
  - simpl. now rewrite Nat.add_0_r.
  - simpl in H. apply andb_prop in H as [Hc Hds].
    destruct (is_decimal_facts c Hc) as (Hu & _ & _ & _ & Hv & Hlt).
    cbn [long_from_string_base fold_left List.length].
    rewrite Hu, Hv, Hlt, (IH _ _ Hds). now rewrite Nat.add_succ_r.
Qed.

Lemma within_limit_base10 (ds : str) :
  within_digit_limit ds = true ->
  exceeds_digit_limit 10 (List.length ds) = false.
Proof.
  unfold within_digit_limit, exceeds_digit_limit. intro H.
  now rewrite Nat.ltb_antisym, H, andb_false_r.
Qed.

Lemma PyLong_FromString_decimal (ds : str) :
  decimal_literal ds = true ->
  within_digit_limit ds = true ->
  PyLong_FromString 10 ds = Some (decimal_value ds).
Proof.
  destruct ds as [|c ds]; [discriminate|]. intros H Hlim. cbn [decimal_literal] in H.
  pose proof H as Hall. cbn [forallb] in H. apply andb_prop in H as [Hc Hds].
  destruct (is_decimal_facts c Hc) as (Hu & Hp & Hm & Hs & _ & _).
  apply within_limit_base10 in Hlim. cbn [List.length] in Hlim.
  unfold PyLong_FromString, PyLong_FromString_or_error. cbn [lstrip]. rewrite Hs.
  cbn [skip_sign]. rewrite Hp, Hm.
  assert (Hpre : skip_prefix 10 (c :: ds) = c :: ds).
  { destruct ds as [|c1 ds']; [reflexivity|]. cbn [skip_prefix].
    replace (10 =? 16) with false by reflexivity.
    now rewrite andb_false_r. }
  rewrite Hpre, Hu, (long_from_string_base_decimal _ 0 0 Hall).
  cbn [List.length Nat.add]. rewrite Hlim. cbn [lstrip].
  unfold decimal_value. f_equal. lia.
Qed.

Lemma int_of_bytes_decimal (ds : str) :
  decimal_literal ds = true -> within_digit_limit ds = true ->
  int_of_bytes ds = Return (decimal_value ds).
Proof.
  intros H L. unfold int_of_bytes. now rewrite (PyLong_FromString_decimal _ H L).
Qed.

Lemma replace_app (old : ascii) (new a b : str) :
  replace old new (a ++ b) = replace old new a ++ replace old new b.
Proof.
  induction a as [|c a IH]; [reflexivity|]. simpl.
  destruct (chr_eqb c old); rewrite IH; [now rewrite app_assoc | reflexivity].
Qed.

Lemma replace_pair (p : str) :
  hex_byte_pair p = true -> replace ":" [] p = p.
Proof.
  destruct p as [|a [|b [|c p]]]; try discriminate. cbn [hex_byte_pair].
  intro H. apply andb_prop in H as [Ha Hb].
  destruct (is_hex_facts a Ha) as (Ea & _). destruct (is_hex_facts b Hb) as (Eb & _).
  cbn [replace]. now rewrite Ea, Eb.
Qed.

Lemma replace_join (pairs : list str) :
  forallb hex_byte_pair pairs = true ->
  replace ":" [] (join ":" pairs) = List.concat pairs.
Proof.
  induction pairs as [|p pairs IH]; [reflexivity|].
  cbn [forallb]. intro H. apply andb_prop in H as [Hp Hps].
  destruct pairs as [|q pairs].
  - cbn [join List.concat]. rewrite app_nil_r. now apply replace_pair.
  - change (join ":" (p :: q :: pairs)) with (p ++ ":" ++ join ":" (q :: pairs)).
    rewrite !replace_app, (replace_pair _ Hp), (IH Hps). reflexivity.
Qed.

Lemma length_concat_pairs (pairs : list str) :
  forallb hex_byte_pair pairs = true ->
  List.length (List.concat pairs) = (2 * List.length pairs)%nat.
Proof.
  induction pairs as [|p pairs IH]; [reflexivity|].
  cbn [forallb]. intro H. apply andb_prop in H as [Hp Hps].
  destruct p as [|a [|b [|c p]]]; try discriminate.
  cbn [List.concat app List.length]. rewrite (IH Hps). lia.
Qed.

Lemma unhex_pairs_concat (pairs : list str) :
  forallb hex_byte_pair pairs = true ->
  unhex_pairs (List.concat pairs) = Some (map byte_of_pair pairs).
Proof.
  induction pairs as [|p pairs IH]; [reflexivity|].
  cbn [forallb]. intro H. apply andb_prop in H as [Hp Hps].
  destruct p as [|a [|b [|c p]]]; try discriminate.
  cbn [hex_byte_pair] in Hp. apply andb_prop in Hp as [Ha Hb].
  destruct (is_hex_facts a Ha) as (_ & Va & La).
  destruct (is_hex_facts b Hb) as (_ & Vb & Lb).
  cbn [List.concat app unhex_pairs map byte_of_pair]. unfold hex_pair.
  rewrite Va, Vb, La, Lb. cbn [andb]. now rewrite (IH Hps).
Qed.

Lemma unhexlify_concat (pairs : list str) :
  forallb hex_byte_pair pairs = true ->
  unhexlify (List.concat pairs) = Return (map byte_of_pair pairs).
Proof.
  intro H. unfold unhexlify.
  rewrite (length_concat_pairs _ H), (unhex_pairs_concat _ H).
  replace (Nat.odd (2 * List.length pairs)) with false; [reflexivity|].
  symmetry. rewrite <- Nat.negb_even, Nat.even_mul. reflexivity.
Qed.

Lemma no_colon_decimal (ds : str) :
  forallb is_decimal ds = true -> no_char ":" ds = true.
Proof.
  induction ds as [|c ds IH]; [reflexivity|]. cbn [forallb no_char].
  intro H. apply andb_prop in H as [Hc Hds].
  unfold no_char in IH. rewrite (IH Hds), andb_true_r.
  revert Hc. ascii_cases c; vm_compute; intro H; try discriminate H; reflexivity.
Qed.

Lemma decimal_literal_digits (ds : str) :
  decimal_literal ds = true -> forallb is_decimal ds = true.
Proof. destruct ds; [discriminate | trivial]. Qed.

Lemma no_char_app (c : ascii) (a b : str) :
  no_char c a = true -> no_char c b = true -> no_char c (a ++ b) = true.
Proof. intros Ha Hb. unfold no_char in *. now rewrite forallb_app, Ha, Hb. Qed.

Lemma skipn_prefix {A : Type} (k : nat) (a b : list A) :
  List.length a = k -> skipn k (a ++ b) = b.
Proof.
  intros <-. rewrite skipn_app, skipn_all, Nat.sub_diag. reflexivity.
Qed.

(** Whatever stands in the place of the markers, the decoder drops three
    characters of the second token and four of the third. *)
Lemma parse_unmarked_line (tok0 pre1 pre2 n k : str) (pairs : list str) :
  no_char ":" tok0 = true ->
  no_char ":" pre1 = true -> List.length pre1 = 3%nat ->
  no_char ":" pre2 = true -> List.length pre2 = 4%nat ->
  decimal_literal n = true -> within_digit_limit n = true ->
  decimal_literal k = true -> within_digit_limit k = true ->
  forallb hex_byte_pair pairs = true ->
  decimal_value k = Z.of_nat (List.length pairs) ->
  SerialHandler._parse (unmarked_line tok0 pre1 pre2 n k pairs)
  = Return (decimal_value n, map byte_of_pair pairs).
Proof.
  intros H0 H1 L1 H2 L2 Hn Ln Hk Lk Hp Hlen.
  assert (Hs : split ":" 3 (unmarked_line tok0 pre1 pre2 n k pairs)
               = [tok0; pre1 ++ n; pre2 ++ k; join ":" pairs]).
  { unfold unmarked_line.
    replace (tok0 ++ ":" ++ pre1 ++ n ++ ":" ++ pre2 ++ k ++ ":" ++ join ":" pairs)
      with (tok0 ++ ":" ++ (pre1 ++ n) ++ ":" ++ (pre2 ++ k) ++ ":" ++ join ":" pairs)
      by now rewrite <- !app_assoc.
    apply split_four; trivial.
    - apply no_char_app; trivial.
      now apply no_colon_decimal, decimal_literal_digits.
    - apply no_char_app; trivial.
      now apply no_colon_decimal, decimal_literal_digits. }
  unfold SerialHandler._parse, SerialHandler._parse_try. rewrite Hs.
  cbn [getitem nth_error bind]. unfold slice_from.
  rewrite (skipn_prefix 3 pre1 n L1), (int_of_bytes_decimal n Hn Ln).
  cbn [bind].
  rewrite (skipn_prefix 4 pre2 k L2), (int_of_bytes_decimal k Hk Lk).
  cbn [bind].
  rewrite (replace_join pairs Hp), (unhexlify_concat pairs Hp).
  cbn [bind]. rewrite length_map, Hlen, Z.eqb_refl. reflexivity.
Qed.

(** C2, as amended: every serial line [FRAME:ID=<n>:LEN=<k>:<pairs>],
    with [n] and [k] decimal literals of at most 4300 digits, the most
    that [int] takes, and [pairs] a list of [k] two-digit hex byte pairs
    joined by colons, decodes to the identifier [n] read in base ten and to
    the bytes the pairs denote, and the payload has the declared length. *)
Theorem serial_valid_line_decodes (n k : str) (pairs : list str) :
  decimal_literal n = true -> within_digit_limit n = true ->
  decimal_literal k = true -> within_digit_limit k = true ->
  forallb hex_byte_pair pairs = true ->
  decimal_value k = Z.of_nat (List.length pairs) ->
  SerialHandler._parse (serial_line n k pairs)
  = Return (decimal_value n, map byte_of_pair pairs)
  /\ Z.of_nat (List.length (map byte_of_pair pairs)) = decimal_value k.
Proof.
  intros Hn Ln Hk Lk Hp Hlen. split.
  - change (serial_line n k pairs)
      with (unmarked_line "FRAME" "ID=" "LEN=" n k pairs).
    now apply parse_unmarked_line.
  - now rewrite length_map.
Qed.

Lemma serial_valid_line_decodes_witness :
  SerialHandler._parse "FRAME:ID=246:LEN=8:8E:62:1C:F6:1E:63:63:20"
  = Return (246, ["142"; "098"; "028"; "246"; "030"; "099"; "099"; "032"]%char)
  /\ Z.of_nat (List.length ["142"; "098"; "028"; "246"; "030"; "099"; "099"; "032"]%char) = 8.
Proof.
  apply (serial_valid_line_decodes "246" "8"
           (map list_ascii_of_string ["8E"; "62"; "1C"; "F6"; "1E"; "63"; "63"; "20"]));
    reflexivity.
Defined.

(** C2, as stated, fails: a line of the valid shape whose identifier has
    4301 digits, one more than [int] takes, raises [InvalidFrame]. *)
Lemma serial_valid_line_over_digit_limit :
  SerialHandler._parse (serial_line (repeat "1"%char 4301) "0" [])
  = Raise (InvalidFrame
             ("Invalid frame " ++ bytes_repr (serial_line (repeat "1"%char 4301) "0" []))).
Proof.
  assert (E : exists m, SerialHandler._parse_try (serial_line (repeat "1"%char 4301) "0" [])
                        = Raise (ValueError m))
    by (eexists; vm_compute; reflexivity).
  destruct E as [m E]. unfold SerialHandler._parse. now rewrite E.
Qed.

(** C9, as amended: the markers are not checked.  With any token in the
    place of [FRAME], any three characters in the place of [ID=] and any
    four in the place of [LEN=], each followed by a decimal literal of at
    most 4300 digits, the most that [int] takes, the decoder returns the
    frame it returns for the well-formed line with the same numbers and
    data. *)
Theorem serial_markers_not_validated (tok0 pre1 pre2 n k : str) (pairs : list str) :
  no_char ":" tok0 = true ->
  no_char ":" pre1 = true -> List.length pre1 = 3%nat ->
  no_char ":" pre2 = true -> List.length pre2 = 4%nat ->
  decimal_literal n = true -> within_digit_limit n = true ->
  decimal_literal k = true -> within_digit_limit k = true ->
  forallb hex_byte_pair pairs = true ->
  decimal_value k = Z.of_nat (List.length pairs) ->
  SerialHandler._parse (unmarked_line tok0 pre1 pre2 n k pairs)
  = Return (decimal_value n, map byte_of_pair pairs)
  /\ SerialHandler._parse (unmarked_line tok0 pre1 pre2 n k pairs)
     = SerialHandler._parse (serial_line n k pairs).
Proof.
  intros H0 H1 L1 H2 L2 Hn Ln Hk Lk Hp Hlen.
  assert (E : SerialHandler._parse (unmarked_line tok0 pre1 pre2 n k pairs)
              = Return (decimal_value n, map byte_of_pair pairs))
    by now apply parse_unmarked_line.
  split; [exact E|]. rewrite E. symmetry.
  change (serial_line n k pairs)
    with (unmarked_line "FRAME" "ID=" "LEN=" n k pairs).
  now apply parse_unmarked_line.
Qed.

Lemma serial_markers_not_validated_witness :
  SerialHandler._parse "JUNK:XY=246:ABC=2:AA:BB" = Return (246, ["170"; "187"]%char)
  /\ SerialHandler._parse "JUNK:XY=246:ABC=2:AA:BB"
     = SerialHandler._parse "FRAME:ID=246:LEN=2:AA:BB".
Proof.
  apply (serial_markers_not_validated "JUNK" "XY=" "ABC=" "246" "2"
           (map list_ascii_of_string ["AA"; "BB"]));
    reflexivity.
Defined.

(** C9, as stated, fails: with a decimal of 4301 digits, one more than
    [int] takes, after the three characters of the second token, the
    decoder raises [InvalidFrame] and no frame is returned. *)
Lemma unmarked_line_over_digit_limit :
  SerialHandler._parse (unmarked_line "JUNK" "XY=" "ABC=" (repeat "1"%char 4301) "0" [])
  = Raise (InvalidFrame
             ("Invalid frame "
                ++ bytes_repr (unmarked_line "JUNK" "XY=" "ABC="
                                 (repeat "1"%char 4301) "0" []))).
Proof.
  assert (E : exists m,
             SerialHandler._parse_try
               (unmarked_line "JUNK" "XY=" "ABC=" (repeat "1"%char 4301) "0" [])
             = Raise (ValueError m))
    by (eexists; vm_compute; reflexivity).
  destruct E as [m E]. unfold SerialHandler._parse. now rewrite E.
Qed.

(** *** Malformed serial lines *)

Lemma unhex_pairs_spec (s : bytes) :
  unhex_pairs s
  = if Nat.even (List.length s) && forallb is_hex s
    then unhex_pairs s else None.
Proof.
  enough (H : forall n s, (List.length s <= n)%nat ->
            unhex_pairs s <> None ->
            Nat.even (List.length s) && forallb is_hex s = true).
  { destruct (Nat.even (List.length s) && forallb is_hex s) eqn:E; [reflexivity|].
    destruct (unhex_pairs s) eqn:U; [|reflexivity].
    rewrite (H (List.length s) s) in E; [discriminate|lia|congruence]. }
  clear s. induction n as [|n IH]; intros s Hn Hs.
  - destruct s; [reflexivity | simpl in Hn; lia].
  - destruct s as [|a [|b s]]; [reflexivity | now elim Hs |].
    cbn [unhex_pairs] in Hs. unfold hex_pair in Hs.
    cbn [List.length forallb]. unfold is_hex at 1 2, is_digit_in.
    destruct (digit_value a) as [hi|]; [|now elim Hs].
    destruct (digit_value b) as [lo|]; [|now elim Hs].
    destruct (hi <? 16); [|now elim Hs]. destruct (lo <? 16); [|now elim Hs].
    cbn [andb] in *. change (Nat.even (S (S (List.length s)))) with (Nat.even (List.length s)).
    apply IH; [simpl in Hn; lia|].
    destruct (unhex_pairs s); [discriminate | now elim Hs].
Qed.

Lemma unhex_pairs_length (s data : bytes) :
  unhex_pairs s = Some data -> List.length data = Nat.div2 (List.length s).
Proof.
  enough (H : forall n s data, (List.length s <= n)%nat ->
            unhex_pairs s = Some data -> List.length data = Nat.div2 (List.length s))
    by (apply (H (List.length s)); lia).
  clear s data. induction n as [|n IH]; intros s data Hn Hs.
  - destruct s; [injection Hs as <-; reflexivity | simpl in Hn; lia].
  - destruct s as [|a [|b s]]; [injection Hs as <-; reflexivity | discriminate |].
    cbn [unhex_pairs] in Hs. destruct (hex_pair a b); [|discriminate].
    destruct (unhex_pairs s) as [r|] eqn:U; [|discriminate].
    injection Hs as <-. cbn [List.length Nat.div2]. f_equal.
    apply IH; [simpl in Hn; lia | exact U].
Qed.

(** The body of the [try] raises nothing but [IndexError] and [ValueError]. *)
Lemma _parse_try_raises (line : bytes) (e : exn) :
  SerialHandler._parse_try line = Raise e ->
  (exists m, e = IndexError m) \/ (exists m, e = ValueError m).
Proof.
  unfold SerialHandler._parse_try, getitem, int_of_bytes, unhexlify.
  destruct (nth_error (split ":" 3 line) 1); cbn [bind];
    [|intro H; injection H as <-; eauto].
  destruct (PyLong_FromString 10 _); cbn [bind];
    [|intro H; injection H as <-; eauto].
  destruct (nth_error (split ":" 3 line) 2); cbn [bind];
    [|intro H; injection H as <-; eauto].
  destruct (PyLong_FromString 10 _); cbn [bind];
    [|intro H; injection H as <-; eauto].
  destruct (nth_error (split ":" 3 line) 3); cbn [bind];
    [|intro H; injection H as <-; eauto].
  destruct (Nat.odd _); cbn [bind]; [intro H; injection H as <-; eauto|].
  destruct (unhex_pairs _); cbn [bind]; [discriminate|].
  intro H; injection H as <-; eauto.
Qed.

(** When the body of the [try] returns, every step has succeeded. *)
Lemma _parse_try_returns (line : bytes) (frame_id frame_length : Z) (data : bytes) :
  SerialHandler._parse_try line = Return (frame_id, frame_length, data) ->
  missing_token line = false /\ non_numeric_id line = false /\
  non_numeric_len line = false /\ bad_hex_data line = false /\
  length_differs line = negb (Z.of_nat (List.length data) =? frame_length).
Proof.
  unfold SerialHandler._parse_try, getitem, int_of_bytes, unhexlify,
    missing_token, non_numeric_id, non_numeric_len, bad_hex_data,
    length_differs, data_digits, tokens, slice_from.
  destruct (nth_error _ 1) as [f1|]; cbn [bind]; [|discriminate].
  destruct (PyLong_FromString 10 (skipn 3 _)) as [i|]; cbn [bind]; [|discriminate].
  destruct (nth_error _ 2) as [f2|]; cbn [bind]; [|discriminate].
  destruct (PyLong_FromString 10 (skipn 4 _)) as [k|]; cbn [bind]; [|discriminate].
  destruct (nth_error _ 3) as [f3|] eqn:E3; cbn [bind]; [|discriminate].
  destruct (Nat.odd _) eqn:Odd; cbn [bind]; [discriminate|].
  destruct (unhex_pairs _) as [d|] eqn:U; cbn [bind]; [|discriminate].
  intro H. injection H as <- <- <-.
  assert (L : (3 < List.length (split ":" 3 line))%nat)
    by (apply (nth_error_Some (split ":" 3 line) 3); intro N;
        rewrite N in E3; discriminate E3).
  rewrite (unhex_pairs_length _ _ U).
  rewrite unhex_pairs_spec in U.
  destruct (Nat.even _ && forallb is_hex _) eqn:V; [|discriminate].
  apply andb_prop in V as [_ V]. rewrite V.
  repeat split; try reflexivity.
  apply Nat.ltb_ge. lia.
Qed.

Lemma bytes_repr_plain (line : bytes) :
  forallb plain_byte line = true -> bytes_repr line = "b'" ++ line ++ "'".
Proof.
  intro H. unfold bytes_repr.
  assert (Q : existsb (chr_eqb "'") line = false
              /\ flat_map (repr_byte "'") line = line).
  { induction line as [|c l IH]; [split; reflexivity|].
    cbn [forallb existsb flat_map] in *.
    apply andb_prop in H as [Hc Hl]. destruct (IH Hl) as [-> ->].
    rewrite orb_false_r. replace (repr_byte "'" c) with [c].
    - split; [|reflexivity].
      revert Hc. ascii_cases c; vm_compute; intro Hc; try discriminate Hc; reflexivity.
    - revert Hc. ascii_cases c; vm_compute; intro Hc; try discriminate Hc; reflexivity. }
  destruct Q as [Q1 Q2]. rewrite Q1. cbn [andb]. rewrite Q2. reflexivity.
Qed.

(** The decoder raises [InvalidFrame] with one of its two messages as soon
    as one step fails or the lengths differ. *)
Lemma _parse_malformed (line : bytes) :
  missing_token line = true \/ non_numeric_id line = true \/
  non_numeric_len line = true \/ bad_hex_data line = true \/
  length_differs line = true ->
  SerialHandler._parse line
  = Raise (InvalidFrame ("Invalid frame " ++ bytes_repr line))
  \/ SerialHandler._parse line
     = Raise (InvalidFrame ("Wrong frame length or invalid data: " ++ bytes_repr line)).
Proof.
  intro H. unfold SerialHandler._parse.
  destruct (SerialHandler._parse_try line) as [[[frame_id frame_length] data]|e] eqn:E.
  - destruct (_parse_try_returns _ _ _ _ E) as (H1 & H2 & H3 & H4 & H5).
    rewrite H1, H2, H3, H4, H5 in H.
    destruct H as [H|[H|[H|[H|H]]]]; try discriminate H.
    rewrite H. now right.
  - destruct (_parse_try_raises _ _ E) as [[m ->]|[m ->]]; now left.
Qed.

(** C4: a serial line with a missing token, a non-numeric identifier or
    length, hex data of odd length or with a character that is not a hex
    digit, or a number of bytes that differs from the declared length,
    makes the decoder raise [InvalidFrame], and no frame is returned.  The
    message is one of the decoder's two texts followed by the [repr] of the
    line, which shows a line of plain printable characters verbatim
    between [b'] and [']. *)
Theorem serial_malformed_line_raises (line : bytes) :
  missing_token line = true \/ non_numeric_id line = true \/
  non_numeric_len line = true \/ bad_hex_data line = true \/
  length_differs line = true ->
  (exists prefix : str,
     (prefix = "Invalid frame " \/ prefix = "Wrong frame length or invalid data: ")
     /\ SerialHandler._parse line = Raise (InvalidFrame (prefix ++ bytes_repr line)))
  /\ (forallb plain_byte line = true -> bytes_repr line = "b'" ++ line ++ "'").
Proof.
  intro H. split; [|apply bytes_repr_plain].
  destruct (_parse_malformed line H) as [E|E]; eexists; (split; [|exact E]); auto.
Qed.

Lemma serial_malformed_line_raises_witness :
  (exists prefix : str,
     (prefix = "Invalid frame " \/ prefix = "Wrong frame length or invalid data: ")
     /\ SerialHandler._parse "FRAME:ID=1:LEN=2:AA"
        = Raise (InvalidFrame (prefix ++ bytes_repr "FRAME:ID=1:LEN=2:AA")))
  /\ (forallb plain_byte "FRAME:ID=1:LEN=2:AA" = true ->
      bytes_repr "FRAME:ID=1:LEN=2:AA" = "b'" ++ "FRAME:ID=1:LEN=2:AA" ++ "'").
Proof.
  apply (serial_malformed_line_raises "FRAME:ID=1:LEN=2:AA").
  right. right. right. right. reflexivity.
Defined.

(** Serial data of odd length, or with a character that is not a hex
    digit, is rejected, also through [get_message]. *)
Lemma serial_bad_hex_raises (serial_device rest : list bytes) (line : bytes) :
  SerialHandler._read_until_newline serial_device = Some (line, rest) ->
  bad_hex_data line = true ->
  exists msg, SerialHandler.get_message serial_device
              = Some (Raise (InvalidFrame msg), rest).
Proof.
  intros R H. unfold SerialHandler.get_message. rewrite R.
  destruct (_parse_malformed line) as [E|E]; [tauto | |]; rewrite E; eauto.
Qed.

Example serial_bad_hex_fragmented :
  SerialHandler.get_message
    (map list_ascii_of_string ["FRAME:ID=1:L"; ""; "EN=1:A"] ++ [["Z"; "010"]%char])
  = Some (Raise (InvalidFrame "Invalid frame b'FRAME:ID=1:LEN=1:AZ'"), []).
Proof. vm_compute. reflexivity. Qed.

(** ** Properties of the pattern matcher *)

Lemma backtrack_sound {A : Type} (cont : str -> option A) (s : str)
    (lo k j : nat) (r : A) :
  backtrack cont s lo k = Some (j, r) ->
  cont (skipn j s) = Some r /\ (lo <= j <= k)%nat.
Proof.
  induction k as [|k IH]; cbn [backtrack].
  - destruct (Nat.ltb_spec 0 lo) as [Hlo|Hlo]; [discriminate|].
    destruct (cont (skipn 0 s)) eqn:E; [|discriminate].
    intro Hr. injection Hr as <- <-. split; [exact E | lia].
  - destruct (Nat.ltb_spec (S k) lo) as [Hlo|Hlo]; [discriminate|].
    destruct (cont (skipn (S k) s)) eqn:E.
    + intro Hr. injection Hr as <- <-. split; [exact E | lia].
    + intro Hr. destruct (IH Hr). split; [assumption | lia].
Qed.

Lemma backtrack_first {A : Type} (cont : str -> option A) (s : str)
    (lo k j : nat) (r : A) :
  (lo <= j <= k)%nat ->
  cont (skipn j s) = Some r ->
  (forall i, (j < i <= k)%nat -> cont (skipn i s) = None) ->
  backtrack cont s lo k = Some (j, r).
Proof.
  intros Hj Hr. induction k as [|k IH]; intro Hn; cbn [backtrack].
  - assert (j = 0)%nat as -> by lia.
    destruct (Nat.ltb_spec 0 lo) as [Hlo|Hlo]; [lia|]. now rewrite Hr.
  - destruct (Nat.ltb_spec (S k) lo) as [Hlo|Hlo]; [lia|].
    destruct (Nat.eq_dec j (S k)) as [->|Hne].
    + now rewrite Hr.
    + rewrite (Hn (S k)) by lia. apply IH; [lia|]. intros i Hi. apply Hn. lia.
Qed.

Lemma firstn_run (p : ascii -> bool) (s : str) (j : nat) :
  (j <= run_length p s)%nat ->
  forallb p (firstn j s) = true /\ List.length (firstn j s) = j.
Proof.
  revert j. induction s as [|c s IH]; intros j Hj.
  - simpl in Hj. assert (j = 0)%nat as -> by lia. split; reflexivity.
  - destruct j as [|j]; [split; reflexivity|].
    cbn [run_length] in Hj. destruct (p c) eqn:Pc; [|lia].
    destruct (IH j) as [H1 H2]; [lia|].
    cbn [firstn forallb List.length]. now rewrite Pc, H1, H2.
Qed.

Lemma run_length_app (p : ascii -> bool) (a b : str) :
  forallb p a = true ->
  match b with [] => True | c :: _ => p c = false end ->
  run_length p (a ++ b) = List.length a.
Proof.
  intros Ha Hb. induction a as [|c a IH].
  - destruct b as [|c b]; [reflexivity|]. cbn [app run_length]. now rewrite Hb.
  - cbn [forallb] in Ha. apply andb_prop in Ha as [Hc Ha].
    cbn [app run_length List.length]. now rewrite Hc, (IH Ha).
Qed.

Lemma run_length_all (p : ascii -> bool) (s : str) :
  forallb p s = true -> run_length p s = List.length s.
Proof.
  intro H. rewrite <- (app_nil_r s) at 1. now apply run_length_app.
Qed.

(** What a successful match of each kind of item says. *)
Lemma re_match_once (p : ascii -> bool) (cap : bool) (re : pattern) (s : str)
    (gs : list str) :
  re_match (Item p Once cap :: re) s = Some gs ->
  exists c s' gs', s = c :: s' /\ p c = true /\ re_match re s' = Some gs'
                   /\ gs = if cap then [c] :: gs' else gs'.
Proof.
  cbn [re_match quant chars]. destruct s as [|c s']; [discriminate|].
  destruct (p c) eqn:Pc; [|discriminate].
  destruct (re_match re s') as [gs'|] eqn:E; [|discriminate].
  intro H. injection H as <-. exists c, s', gs'. repeat split; trivial.
Qed.

Lemma re_match_greedy (p : ascii -> bool) (q : quantifier) (cap : bool)
    (re : pattern) (s : str) (gs : list str) :
  q <> Once ->
  re_match (Item p q cap :: re) s = Some gs ->
  exists j gs',
    (j <= run_length p s)%nat
    /\ (match q with OneOrMore => 1 | _ => 0 end <= j)%nat
    /\ re_match re (skipn j s) = Some gs'
    /\ gs = if cap then firstn j s :: gs' else gs'.
Proof.
  intro Hq. cbn [re_match quant chars].
  destruct q; [now elim Hq | |].
  - destruct (backtrack (re_match re) s 0 (run_length p s)) as [[j gs']|] eqn:E;
      [|discriminate].
    intro H. injection H as <-. apply backtrack_sound in E as [E Hj].
    exists j, gs'. repeat split; trivial; lia.
  - destruct (backtrack (re_match re) s 1 (run_length p s)) as [[j gs']|] eqn:E;
      [|discriminate].
    intro H. injection H as <-. apply backtrack_sound in E as [E Hj].
    exists j, gs'. repeat split; trivial; lia.
Qed.

(** A match of [MSG_RE] captures three groups: dots and digits, then
    upper-case hex digits, then upper-case hex digits; the first two are
    not empty. *)
Lemma MSG_RE_groups (s : str) (gs : list str) :
  re_match CandumpHandler.MSG_RE s = Some gs ->
  exists g1 g2 g3,
    gs = [g1; g2; g3]
    /\ forallb dot_or_digit g1 = true /\ g1 <> []
    /\ forallb upper_hex g2 = true /\ g2 <> []
    /\ forallb upper_hex g3 = true.
Proof.
  unfold CandumpHandler.MSG_RE, lit. intro H.
  apply re_match_once in H as (c1 & s1 & gs1 & -> & _ & H & ->).
  apply re_match_greedy in H as (j1 & gs2 & Hj1 & Hlo1 & H & ->); [|discriminate].
  apply re_match_once in H as (c2 & s2 & gs3 & _ & _ & H & ->).
  apply re_match_greedy in H as (j2 & gs4 & _ & _ & H & ->); [|discriminate].
  apply re_match_once in H as (c3 & s3 & gs5 & _ & _ & H & ->).
  apply re_match_greedy in H as (j3 & gs6 & Hj3 & Hlo3 & H & ->); [|discriminate].
  apply re_match_once in H as (c4 & s4 & gs7 & _ & _ & H & ->).
  apply re_match_greedy in H as (j4 & gs8 & Hj4 & _ & H & ->); [|discriminate].
  cbn [re_match] in H. injection H as <-.
  destruct (firstn_run dot_or_digit s1 j1) as [A1 B1]; [lia|].
  destruct (firstn_run upper_hex s3 j3) as [A3 B3]; [lia|].
  destruct (firstn_run upper_hex s4 j4) as [A4 B4]; [lia|].
  eexists _, _, _. split; [reflexivity|].
  repeat split; trivial.
  - intro N. rewrite N in B1. simpl in B1. lia.
  - intro N. rewrite N in B3. simpl in B3. lia.
Qed.

(** ** Properties of the replay decoder *)

Import CandumpHandler.

(** The decoder, step by step. *)
Lemma _parse_from_candump_eq (line : str) (self : t) :
  _parse_from_candump line self
  = match groups line with
    | Some [abstime; hex_can_id; hex_can_data] =>
        match float_of_str abstime with
        | Raise e => (Raise e, self)
        | Return abstime =>
            match float_div (PrimFloat.sub abstime (clock self)) (speed_scale self) with
            | Raise e => (Raise e, self)
            | Return delay =>
                match time_sleep delay with
                | Raise e => (Raise e, self)
                | Return _ =>
                    let self' := after_sleep self abstime delay in
                    match int_base16 hex_can_id with
                    | Raise e => (Raise e, self')
                    | Return can_id =>
                        match bytes_fromhex hex_can_data with
                        | Return can_data => (Return (can_id, can_data), self')
                        | Raise (ValueError err) =>
                            (Raise (InvalidFrame
                                      ("Can't decode message '"
                                         ++ strip (chr_eqb "010") line
                                         ++ "': '" ++ err ++ "'")), self')
                        | Raise e => (Raise e, self')
                        end
                    end
                end
            end
        end
    | _ => (Raise (InvalidFrame ("Wrong format: '" ++ strip (chr_eqb "010") line ++ "'")),
            self)
    end.
Proof.
  unfold _parse_from_candump, groups.
  destruct (re_match MSG_RE (strip (chr_eqb "010") line))
    as [[|abstime [|hex_can_id [|hex_can_data [|]]]]|]; try reflexivity.
  unfold bindM, lift, get, sleep, set_clock, ret, raise, after_sleep.
  destruct (float_of_str abstime) as [t|]; [|reflexivity].
  destruct (float_div _ _) as [delay|]; [|reflexivity].
  destruct (time_sleep delay) as [[]|]; [|reflexivity].
  cbn [file_path file_object speed_scale clock slept].
  destruct (int_base16 hex_can_id); [|reflexivity].
  destruct (bytes_fromhex hex_can_data) as [|[]]; reflexivity.
Qed.

Lemma float_div_eq (a b : float) (d : float) :
  float_div a b = Return d -> d = PrimFloat.div a b.
Proof.
  unfold float_div. destruct (PrimFloat.eqb b 0); [discriminate|].
  intro H. now injection H as <-.
Qed.

Lemma time_sleep_negative (secs : float) :
  PrimFloat.ltb secs 0 = true ->
  exists msg, time_sleep secs = Raise (ValueError msg)
              \/ time_sleep secs = Raise (OverflowError msg).
Proof.
  intro H. unfold time_sleep.
  destruct (PrimFloat.is_nan secs); [eauto|].
  destruct (negb _); [eauto|]. rewrite H. eauto.
Qed.

(** C1, as amended: a negative pacing delay is handed to [time.sleep]
    as it is; the call raises what [time.sleep] raises for it (or what the
    division raises), which is not [InvalidFrame]; nothing is slept and the
    object, its clock included, is left as it was. *)
Theorem negative_delay_raises (line : str) (self : t) (abstime : float) :
  timestamp line = Some abstime ->
  PrimFloat.ltb (pacing_delay self abstime) 0 = true ->
  exists msg,
    _parse_from_candump line self = (Raise (ValueError msg), self)
    \/ _parse_from_candump line self = (Raise (OverflowError msg), self)
    \/ _parse_from_candump line self = (Raise (ZeroDivisionError msg), self).
Proof.
  unfold timestamp. intros Ht Hneg. rewrite _parse_from_candump_eq.
  destruct (groups line) as [[|a [|i [|d [|]]]]|]; try discriminate Ht.
  destruct (float_of_str a) as [t|]; [|discriminate Ht].
  injection Ht as ->.
  destruct (float_div _ _) as [delay|e] eqn:D.
  - apply float_div_eq in D. fold (pacing_delay self abstime) in D. subst delay.
    destruct (time_sleep_negative _ Hneg) as [msg [-> | ->]]; eauto.
  - unfold float_div in D. destruct (PrimFloat.eqb _ _); [|discriminate D].
    injection D as <-. eauto.
Qed.

Lemma negative_delay_raises_witness :
  exists msg,
    _parse_from_candump "(1.0) can0 123#AA" (mk "capture.log" (Some []) 1 5 [5%float])
    = (Raise (ValueError msg), mk "capture.log" (Some []) 1 5 [5%float])
    \/ _parse_from_candump "(1.0) can0 123#AA" (mk "capture.log" (Some []) 1 5 [5%float])
       = (Raise (OverflowError msg), mk "capture.log" (Some []) 1 5 [5%float])
    \/ _parse_from_candump "(1.0) can0 123#AA" (mk "capture.log" (Some []) 1 5 [5%float])
       = (Raise (ZeroDivisionError msg), mk "capture.log" (Some []) 1 5 [5%float]).
Proof.
  apply (negative_delay_raises "(1.0) can0 123#AA"
           (mk "capture.log" (Some []) 1 5 [5%float]) 1%float);
    reflexivity.
Defined.

(** C1, as stated, fails: replaying a capture whose second line is older
    than its first, the second call raises [ValueError] from the sleep. *)
Lemma negative_delay_not_clamped :
  (open (unlines ["(5.0) can0 123#AA"; "(1.0) can0 123#BB"]) ;;;
   get_message ;;; get_message) (__init__ "capture.log" 1)
  = (Raise (ValueError "sleep length must be non-negative"),
     mk "capture.log" (Some []) 1 5 [5%float]).
Proof. vm_compute. reflexivity. Qed.

Lemma upper_hex_facts (c : ascii) :
  upper_hex c = true ->
  chr_eqb c "_" = false /\ chr_eqb c "+" = false /\ chr_eqb c "-" = false /\
  chr_eqb c "x" = false /\ chr_eqb c "X" = false /\ chr_eqb c " " = false /\
  chr_eqb c "010" = false /\ is_space c = false /\
  digit_value c = Some (hex_digit_value c) /\ (hex_digit_value c <? 16) = true.
Proof.
  ascii_cases c; vm_compute; intro H; try discriminate H; repeat split.
Qed.

Lemma long_from_string_base_hex (ds : str) (acc : Z) (n : nat) :
  forallb upper_hex ds = true ->
  long_from_string_base 16 ds false acc n
  = Some (fold_left (fun a c => a * 16 + hex_digit_value c) ds acc,
          (n + List.length ds)%nat, []).
Proof.
  revert acc n. induction ds as [|c ds IH]; intros acc n H.
  - simpl. now rewrite Nat.add_0_r.
  - simpl in H. apply andb_prop in H as [Hc Hds].
    destruct (upper_hex_facts c Hc) as (Hu & _ & _ & _ & _ & _ & _ & _ & Hv & Hlt).
    cbn [long_from_string_base fold_left List.length].
    rewrite Hu, Hv, Hlt, (IH _ _ Hds). now rewrite Nat.add_succ_r.
Qed.

(** [int(x, 16)] cannot fail on group 2. *)
Lemma int_base16_upper_hex (ds : str) :
  forallb upper_hex ds = true -> ds <> [] ->
  int_base16 ds = Return (parse_hex ds).
Proof.
  destruct ds as [|c ds]; [now intros _ N|]. intros Hall _.
  pose proof Hall as H. cbn [forallb] in H. apply andb_prop in H as [Hc Hds].
  destruct (upper_hex_facts c Hc) as (Hu & Hp & Hm & _ & _ & _ & _ & Hs & _ & _).
  unfold int_base16, PyLong_FromString, PyLong_FromString_or_error.
  cbn [lstrip]. rewrite Hs.
  cbn [skip_sign]. rewrite Hp, Hm.
  assert (Hpre : skip_prefix 16 (c :: ds) = c :: ds).
  { destruct ds as [|c1 ds']; [reflexivity|]. cbn [skip_prefix].
    cbn [forallb] in Hds. apply andb_prop in Hds as [Hc1 _].
    destruct (upper_hex_facts c1 Hc1) as (_ & _ & _ & Hx & HX & _).
    now rewrite Hx, HX, andb_false_r. }
  rewrite Hpre, Hu, (long_from_string_base_hex _ 0 0 Hall).
  cbn [List.length Nat.add].
  change (exceeds_digit_limit 16 (S (List.length ds))) with false.
  cbn [lstrip]. unfold parse_hex. do 2 f_equal. lia.
Qed.

Lemma bytes_fromhex_raises (x : str) (e : exn) :
  bytes_fromhex x = Raise e -> exists err, e = ValueError err.
Proof.
  unfold bytes_fromhex. destruct (fromhex_at 0 x); [discriminate|].
  intro H. injection H as <-. eauto.
Qed.

(** C6: the clock is 0 after construction; a line that decodes to a frame
    has a timestamp [t], and before the frame is returned the decoder has
    slept [(t - clock) / speed_scale] seconds and set the clock to [t].
    With lines of timestamps 0.0 and 1.0 and a speed scale of 2.0, the
    waits are 0 and 0.5 seconds. *)
Theorem replay_pacing (file_path : str) (scale : float)
    (line : str) (self self' : t) (frame : Z * bytes) :
  _parse_from_candump line self = (Return frame, self') ->
  clock (__init__ file_path scale) = 0%float
  /\ (exists abstime,
        timestamp line = Some abstime
        /\ slept self' = slept self
                         ++ [PrimFloat.div (PrimFloat.sub abstime (clock self))
                                           (speed_scale self)]
        /\ clock self' = abstime)
  /\ slept (snd ((open (unlines ["(0.0) can0 123#AA"; "(1.0) can0 124#BB"]) ;;;
                  get_message ;;; get_message) (__init__ file_path 2)))
     = [0%float; 0.5%float].
Proof.
  intro H. split; [reflexivity|]. split; [|vm_compute; reflexivity].
  rewrite _parse_from_candump_eq in H. unfold timestamp.
  destruct (groups line) as [[|a [|i [|d [|]]]]|]; try discriminate H.
  destruct (float_of_str a) as [abstime|]; [|discriminate H].
  destruct (float_div _ _) as [delay|] eqn:D; [|discriminate H].
  apply float_div_eq in D. subst delay.
  destruct (time_sleep _) as [[]|]; [|discriminate H].
  cbv zeta in H.
  destruct (int_base16 i); [|discriminate H].
  destruct (bytes_fromhex d) as [|[]]; try discriminate H.
  injection H as _ <-. exists abstime. repeat split.
Qed.

Lemma replay_pacing_witness :
  clock (__init__ "capture.log" 2) = 0%float
  /\ (exists abstime,
        timestamp "(1.0) can0 124#BB" = Some abstime
        /\ slept (mk "capture.log" (Some []) 2 1 [0%float; 0.5%float])
           = slept (mk "capture.log" (Some []) 2 0 [0%float])
             ++ [PrimFloat.div
                   (PrimFloat.sub abstime (clock (mk "capture.log" (Some []) 2 0 [0%float])))
                   (speed_scale (mk "capture.log" (Some []) 2 0 [0%float]))]
        /\ clock (mk "capture.log" (Some []) 2 1 [0%float; 0.5%float]) = abstime)
  /\ slept (snd ((open (unlines ["(0.0) can0 123#AA"; "(1.0) can0 124#BB"]) ;;;
                  get_message ;;; get_message) (__init__ "capture.log" 2)))
     = [0%float; 0.5%float].
Proof.
  apply (replay_pacing "capture.log" 2 "(1.0) can0 124#BB"
           (mk "capture.log" (Some []) 2 0 [0%float])
           (mk "capture.log" (Some []) 2 1 [0%float; 0.5%float])
           (292, ["187"%char])).
  vm_compute. reflexivity.
Defined.

(** C7, as amended: the clock is set to the line's timestamp as soon as the
    pacing sleep returns, before the identifier and the data are decoded.
    After a frame is returned the clock is the line's timestamp.  When
    [InvalidFrame] is raised because the line does not match the pattern,
    the object is unchanged; when it is raised because the data cannot be
    decoded, the sleep has been done and the clock is already the line's
    timestamp.  Any other exception leaves the object unchanged. *)
Theorem clock_update (line : str) (self self' : t) (r : result (Z * bytes)) :
  _parse_from_candump line self = (r, self') ->
  match r with
  | Return _ => timestamp line = Some (clock self')
  | Raise (InvalidFrame _) =>
      (groups line = None /\ self' = self)
      \/ (exists abstime,
            timestamp line = Some abstime
            /\ self' = after_sleep self abstime (pacing_delay self abstime))
  | Raise _ => self' = self
  end.
Proof.
  rewrite _parse_from_candump_eq. unfold timestamp.
  destruct (groups line) as [gs|] eqn:G.
  2:{ intro H. injection H as <- <-. left. split; reflexivity. }
  destruct (MSG_RE_groups _ _ G) as (a & i & d & -> & _ & _ & Hi & Ni & _).
  destruct (float_of_str a) as [abstime|e] eqn:F.
  2:{ intro H. injection H as <- <-. unfold float_of_str in F.
      destruct (skipn _ a) as [|c frac]; [destruct (firstn _ a)|destruct (_ && _)];
        try discriminate F; injection F as <-; reflexivity. }
  destruct (float_div _ _) as [delay|e] eqn:D.
  2:{ intro H. injection H as <- <-. unfold float_div in D.
      destruct (PrimFloat.eqb _ _); [|discriminate D]. now injection D as <-. }
  apply float_div_eq in D. fold (pacing_delay self abstime) in D. subst delay.
  destruct (time_sleep _) as [[]|e] eqn:S.
  2:{ intro H. injection H as <- <-. unfold time_sleep in S.
      destruct (PrimFloat.is_nan _); [now injection S as <-|].
      destruct (negb _); [now injection S as <-|].
      destruct (PrimFloat.ltb _ _); [now injection S as <-|discriminate S]. }
  cbv zeta. rewrite (int_base16_upper_hex i Hi Ni).
  destruct (bytes_fromhex d) as [data|e] eqn:B.
  - intro H. injection H as <- <-. reflexivity.
  - destruct (bytes_fromhex_raises _ _ B) as [err ->].
    intro H. injection H as <- <-. right. exists abstime. split; reflexivity.
Qed.

Lemma clock_update_witness :
  (groups "(5.0) can0 123#A" = None
   /\ mk "capture.log" None 1 5 [5%float] = __init__ "capture.log" 1)
  \/ (exists abstime,
        timestamp "(5.0) can0 123#A" = Some abstime
        /\ mk "capture.log" None 1 5 [5%float]
           = after_sleep (__init__ "capture.log" 1) abstime
               (pacing_delay (__init__ "capture.log" 1) abstime)).
Proof.
  apply (clock_update "(5.0) can0 123#A" (__init__ "capture.log" 1)
           (mk "capture.log" None 1 5 [5%float])
           (Raise (InvalidFrame
                     ("Can't decode message '(5.0) can0 123#A': "
                      ++ "'non-hexadecimal number found in fromhex() arg at position 1'")))).
  vm_compute. reflexivity.
Defined.

(** C7, as stated, fails: a line whose data has an odd number of digits
    raises [InvalidFrame], and the clock has moved from 0 to the line's
    timestamp. *)
Lemma clock_moves_on_decode_error :
  _parse_from_candump "(5.0) can0 123#A" (__init__ "capture.log" 1)
  = (Raise (InvalidFrame
              ("Can't decode message '(5.0) can0 123#A': "
               ++ "'non-hexadecimal number found in fromhex() arg at position 1'")),
     mk "capture.log" None 1 5 [5%float])
  /\ clock (__init__ "capture.log" 1) = 0%float
  /\ PrimFloat.eqb 5 0 = false.
Proof. vm_compute. repeat split. Qed.

(** C8: when nothing is left to read, [get_message] raises [EOFError],
    which is not [InvalidFrame], and the object is unchanged. *)
Theorem end_of_stream (self : t) :
  file_object self = Some [] ->
  get_message self = (Raise EOFError, self)
  /\ (forall msg, EOFError <> InvalidFrame msg).
Proof.
  intro H. split; [|discriminate].
  destruct self as [fp fo sc cl sl]. cbn [file_object] in H. subst fo.
  reflexivity.
Qed.

Lemma end_of_stream_witness :
  get_message (mk "capture.log" (Some []) 1 0 [0%float])
  = (Raise EOFError, mk "capture.log" (Some []) 1 0 [0%float])
  /\ (forall msg, EOFError <> InvalidFrame msg).
Proof.
  apply (end_of_stream (mk "capture.log" (Some []) 1 0 [0%float])). reflexivity.
Defined.

(** Reading the only line of a file leaves nothing to read. *)
Example last_line_consumed :
  (open (unlines ["(0.0) can0 123#AA"]) ;;; get_message) (__init__ "capture.log" 1)
  = (Return (291, ["170"%char]), mk "capture.log" (Some []) 1 0 [0%float]).
Proof. vm_compute. reflexivity. Qed.

Lemma count_dots_decimal (s : str) :
  forallb is_decimal s = true -> count_occ ascii_dec s "."%char = 0%nat.
Proof.
  induction s as [|c s IH]; [reflexivity|]. cbn [forallb]. intro H.
  apply andb_prop in H as [Hc Hs]. cbn [count_occ].
  destruct (ascii_dec c "."%char) as [->|_]; [discriminate Hc | now apply IH].
Qed.

Lemma firstn_run_length (p : ascii -> bool) (s : str) :
  forallb p (firstn (run_length p s) s) = true.
Proof. now apply firstn_run. Qed.

(** [float] rejects a string with more than one dot. *)
Lemma float_of_str_two_dots (x : str) :
  (1 < count_occ ascii_dec x "."%char)%nat ->
  float_of_str x
  = Raise (ValueError ("could not convert string to float: '" ++ x ++ "'")).
Proof.
  intro H. unfold float_of_str.
  rewrite <- (firstn_skipn (run_length is_decimal x) x) in H at 1.
  rewrite count_occ_app, (count_dots_decimal _ (firstn_run_length _ _)) in H.
  destruct (skipn (run_length is_decimal x) x) as [|c frac].
  - simpl in H. lia.
  - destruct (chr_eqb c "." && forallb is_decimal frac && _) eqn:E; [|reflexivity].
    apply andb_prop in E as [E _]. apply andb_prop in E as [_ E].
    cbn [count_occ] in H. rewrite (count_dots_decimal _ E) in H.
    destruct (ascii_dec c "."%char); simpl in H; lia.
Qed.

(** C10: the pattern takes a timestamp with several dots, as in
    [(1.2.3) can0 123#AA]; on a line whose timestamp group holds more than
    one dot the conversion to a float raises [ValueError], which is not
    caught: the call raises it, not [InvalidFrame], and leaves the object
    unchanged. *)
Theorem float_error_escapes (line : str) (self : t)
    (abstime hex_can_id hex_can_data : str) :
  groups line = Some [abstime; hex_can_id; hex_can_data] ->
  (1 < count_occ ascii_dec abstime "."%char)%nat ->
  _parse_from_candump line self
  = (Raise (ValueError ("could not convert string to float: '" ++ abstime ++ "'")),
     self)
  /\ groups "(1.2.3) can0 123#AA" = Some [ "1.2.3" : str; "123" : str; "AA" : str ].
Proof.
  intros G H. split; [|reflexivity].
  rewrite _parse_from_candump_eq, G, (float_of_str_two_dots _ H). reflexivity.
Qed.

Lemma float_error_escapes_witness :
  _parse_from_candump "(1.2.3) can0 123#AA" (__init__ "capture.log" 1)
  = (Raise (ValueError ("could not convert string to float: '" ++ "1.2.3" ++ "'")),
     __init__ "capture.log" 1)
  /\ groups "(1.2.3) can0 123#AA" = Some [ "1.2.3" : str; "123" : str; "AA" : str ].
Proof.
  apply (float_error_escapes "(1.2.3) can0 123#AA" (__init__ "capture.log" 1)
           "1.2.3" "123" "AA").
  - reflexivity.
  - vm_compute. lia.
Defined.

(** *** Valid capture lines *)

Lemma rstrip_keep (p : ascii -> bool) (s : str) :
  forallb (fun c => negb (p c)) s = true -> rstrip p s = s.
Proof.
  induction s as [|c s IH]; [reflexivity|]. cbn [forallb rstrip]. intro H.
  apply andb_prop in H as [Hc Hs]. apply negb_true_iff in Hc.
  rewrite (IH Hs), Hc. now destruct s.
Qed.

Lemma rstrip_app_keep (p : ascii -> bool) (a b : str) :
  b <> [] -> rstrip p b = b -> rstrip p (a ++ b) = a ++ b.
Proof.
  intros Nb Hb. induction a as [|c a IH]; [exact Hb|].
  cbn [app rstrip]. rewrite IH. destruct (a ++ b) eqn:E; [|reflexivity].
  apply app_eq_nil in E as [_ E]. now elim Nb.
Qed.

Lemma rstrip_app_drop (p : ascii -> bool) (s : str) (c : ascii) :
  p c = true -> rstrip p (s ++ [c]) = rstrip p s.
Proof.
  intro Hc. induction s as [|d s IH].
  - cbn [app rstrip]. now rewrite Hc.
  - cbn [app rstrip]. now rewrite IH.
Qed.

Lemma re_match_lit (c : ascii) (re : pattern) (s : str) (gs : list str) :
  re_match re s = Some gs -> re_match (lit c :: re) (c :: s) = Some gs.
Proof.
  intro H. cbn [re_match lit quant chars]. unfold chr_eqb.
  now rewrite Ascii.eqb_refl, H.
Qed.

Lemma re_match_lit_none (c : ascii) (re : pattern) (s : str) (j : nat) :
  no_char c s = true -> re_match (lit c :: re) (skipn j s) = None.
Proof.
  revert j. induction s as [|d s IH]; intros j H.
  - now rewrite skipn_nil.
  - cbn [no_char forallb] in H. apply andb_prop in H as [Hd Hs].
    destruct j as [|j]; [|now apply IH].
    cbn [skipn re_match lit quant chars]. apply negb_true_iff in Hd.
    unfold chr_eqb in *. now rewrite Ascii.eqb_sym, Hd.
Qed.

(** A greedy item that can take all of [a] and no more, before a rest
    that the remaining pattern matches. *)
Lemma re_match_run (p : ascii -> bool) (q : quantifier) (cap : bool)
    (re : pattern) (a b : str) (gs : list str) :
  q <> Once ->
  forallb p a = true ->
  match b with [] => True | c :: _ => p c = false end ->
  (match q with OneOrMore => 1 | _ => 0 end <= List.length a)%nat ->
  re_match re b = Some gs ->
  re_match (Item p q cap :: re) (a ++ b) = Some (if cap then a :: gs else gs).
Proof.
  intros Hq Ha Hb Hlo Hre.
  assert (B : forall lo, (lo <= List.length a)%nat ->
            backtrack (re_match re) (a ++ b) lo (run_length p (a ++ b))
            = Some (List.length a, gs)).
  { intros lo L. rewrite (run_length_app p a b Ha Hb).
    apply backtrack_first; [lia | | intros i Hi; lia].
    now rewrite skipn_app, skipn_all, Nat.sub_diag. }
  cbn [re_match quant chars capture captured].
  destruct q; [now elim Hq | |]; rewrite B by lia;
    unfold capture; cbn [captured];
    now rewrite firstn_app, firstn_all, Nat.sub_diag, app_nil_r.
Qed.

(** [.*] before a space, when no later space can start a match. *)
Lemma re_match_any_then_space (re : pattern) (a tail : str) (gs : list str) :
  forallb any_char (a ++ " " ++ tail) = true ->
  no_char " " tail = true ->
  re_match re tail = Some gs ->
  re_match (Item any_char ZeroOrMore false :: lit " " :: re) (a ++ " " ++ tail)
  = Some gs.
Proof.
  intros Hall Htail Hre.
  cbn [re_match quant chars captured]. rewrite (run_length_all _ _ Hall).
  rewrite (backtrack_first _ _ 0 _ (List.length a) gs).
  - reflexivity.
  - rewrite length_app. lia.
  - rewrite skipn_app, skipn_all, Nat.sub_diag. now apply re_match_lit.
  - intros i Hi. rewrite skipn_app, skipn_all2 by lia.
    destruct (i - List.length a)%nat as [|k] eqn:K; [lia|].
    cbn [list_ascii_of_string app skipn]. now apply re_match_lit_none.
Qed.

Lemma no_space_upper_hex (s : str) :
  forallb upper_hex s = true -> no_char " " s = true /\ forallb any_char s = true.
Proof.
  induction s as [|c s IH]; [split; reflexivity|]. cbn [forallb no_char]. intro H.
  apply andb_prop in H as [Hc Hs]. destruct (IH Hs) as [I1 I2].
  unfold no_char in I1. rewrite I1, I2.
  destruct (upper_hex_facts c Hc) as (_ & _ & _ & _ & _ & Hsp & Hnl & _).
  unfold any_char. now rewrite Hsp, Hnl.
Qed.

(** The pattern captures the three fields of a capture line. *)
Lemma MSG_RE_capture_line (ts iface hexid hexdata : str) :
  forallb dot_or_digit ts = true -> ts <> [] ->
  no_char "010" iface = true ->
  forallb upper_hex hexid = true -> hexid <> [] ->
  forallb upper_hex hexdata = true ->
  re_match MSG_RE (capture_line ts iface hexid hexdata)
  = Some [ts; hexid; hexdata].
Proof.
  intros Hts Nts Hif Hid Nid Hdata.
  destruct (no_space_upper_hex _ Hid) as [Sid Aid].
  destruct (no_space_upper_hex _ Hdata) as [Sdata Adata].
  unfold capture_line, MSG_RE. cbn [list_ascii_of_string app].
  apply re_match_lit.
  apply (re_match_run dot_or_digit OneOrMore true _ ts (")"%char :: _));
    [discriminate | exact Hts | reflexivity | destruct ts; [now elim Nts | simpl; lia] |].
  apply re_match_lit.
  change (" "%char :: iface ++ " "%char :: hexid ++ "#"%char :: hexdata)
    with ((" "%char :: iface) ++ " " ++ (hexid ++ "#"%char :: hexdata)).
  apply re_match_any_then_space.
  - assert (Aif : forallb any_char iface = true) by exact Hif.
    repeat (rewrite forallb_app || cbn [forallb app list_ascii_of_string]).
    now rewrite Aif, Aid, Adata.
  - unfold no_char in *. rewrite forallb_app. cbn [forallb]. now rewrite Sid, Sdata.
  - apply (re_match_run upper_hex OneOrMore true _ hexid ("#"%char :: _));
      [discriminate | exact Hid | reflexivity | destruct hexid; [now elim Nid | simpl; lia] |].
    apply re_match_lit.
    rewrite <- (app_nil_r hexdata) at 1.
    apply (re_match_run upper_hex ZeroOrMore true [] hexdata []);
      [discriminate | exact Hdata | exact I | lia | reflexivity].
Qed.

Lemma fromhex_at_upper_hex (s : str) (pos : nat) :
  forallb upper_hex s = true -> Nat.even (List.length s) = true ->
  fromhex_at pos s = inl (parse_hex_pairs s).
Proof.
  enough (H : forall n s pos, (List.length s <= n)%nat ->
            forallb upper_hex s = true -> Nat.even (List.length s) = true ->
            fromhex_at pos s = inl (parse_hex_pairs s))
    by (apply (H (List.length s)); lia).
  clear s pos. induction n as [|n IH]; intros s pos Hn Hs He.
  - destruct s; [reflexivity | simpl in Hn; lia].
  - destruct s as [|a [|b s]]; [reflexivity | discriminate He |].
    cbn [forallb] in Hs. apply andb_prop in Hs as [Ha Hs].
    apply andb_prop in Hs as [Hb Hs].
    destruct (upper_hex_facts a Ha) as (_ & _ & _ & _ & _ & _ & _ & Sa & Va & La).
    destruct (upper_hex_facts b Hb) as (_ & _ & _ & _ & _ & _ & _ & _ & Vb & Lb).
    cbn [fromhex_at parse_hex_pairs]. unfold hex_value.
    rewrite Sa, Va, La, Vb, Lb, (IH s); trivial. simpl in Hn; lia.
Qed.

Lemma bytes_fromhex_upper_hex (s : str) :
  forallb upper_hex s = true -> Nat.even (List.length s) = true ->
  bytes_fromhex s = Return (parse_hex_pairs s).
Proof.
  intros Hs He. unfold bytes_fromhex. now rewrite fromhex_at_upper_hex.
Qed.

(** Stripping newlines leaves a capture line as it is, and removes the
    newline that ends it in the file. *)
Lemma strip_capture_line (ts iface hexid hexdata : str) :
  forallb upper_hex hexdata = true ->
  strip (chr_eqb "010") (capture_line ts iface hexid hexdata)
  = capture_line ts iface hexid hexdata
  /\ strip (chr_eqb "010") (capture_line ts iface hexid hexdata ++ ["010"%char])
     = capture_line ts iface hexid hexdata.
Proof.
  intro Hdata.
  assert (K : rstrip (chr_eqb "010") (capture_line ts iface hexid hexdata)
              = capture_line ts iface hexid hexdata).
  { unfold capture_line.
    replace ("(" ++ ts ++ ") " ++ iface ++ " " ++ hexid ++ "#" ++ hexdata)
      with (("(" ++ ts ++ ") " ++ iface ++ " " ++ hexid) ++ ("#" ++ hexdata))
      by (now rewrite <- !app_assoc).
    apply rstrip_app_keep; [discriminate|]. apply rstrip_keep.
    cbn [list_ascii_of_string app forallb].
    replace (forallb (fun c => negb (chr_eqb "010" c)) hexdata) with true; [reflexivity|].
    symmetry. clear - Hdata. induction hexdata as [|c l IH]; [reflexivity|].
    cbn [forallb] in *. apply andb_prop in Hdata as [Hc Hl]. rewrite (IH Hl).
    destruct (upper_hex_facts c Hc) as (_ & _ & _ & _ & _ & _ & Hnl & _).
    unfold chr_eqb in *. now rewrite Ascii.eqb_sym, Hnl. }
  unfold strip. split.
  - exact K.
  - change (lstrip (chr_eqb "010") (capture_line ts iface hexid hexdata ++ ["010"%char]))
      with (capture_line ts iface hexid hexdata ++ ["010"%char]).
    rewrite rstrip_app_drop; [exact K | reflexivity].
Qed.

Lemma float_of_str_nonempty (x : str) (t : float) :
  float_of_str x = Return t -> x <> [].
Proof. intros H ->. discriminate H. Qed.

(** C3, as amended: for a capture line [(<t>) <iface> <HEXID>#<HEXDATA>],
    with [<t>] a string of dots and digits that [float] accepts, [<iface>]
    free of newlines, [HEXID] one or more upper-case hex digits and
    [HEXDATA] an even number of upper-case hex digits, possibly none, and
    an object on which the pacing sleep for [<t>] goes through, the decoder
    returns the identifier [HEXID] read in base 16 and the bytes [HEXDATA]
    denotes, with or without the newline that ends the line.  On a new
    object [(0.0) can0 123#] gives the identifier 0x123 and no bytes. *)
Theorem capture_valid_line_decodes (ts iface hexid hexdata : str)
    (self : t) (abstime : float) :
  forallb dot_or_digit ts = true ->
  float_of_str ts = Return abstime ->
  no_char "010" iface = true ->
  forallb upper_hex hexid = true -> hexid <> [] ->
  forallb upper_hex hexdata = true -> Nat.even (List.length hexdata) = true ->
  sleep_accepts self abstime = true ->
  _parse_from_candump (capture_line ts iface hexid hexdata) self
  = (Return (parse_hex hexid, parse_hex_pairs hexdata),
     after_sleep self abstime (pacing_delay self abstime))
  /\ _parse_from_candump (capture_line ts iface hexid hexdata ++ ["010"%char]) self
     = _parse_from_candump (capture_line ts iface hexid hexdata) self
  /\ fst (_parse_from_candump "(0.0) can0 123#" (__init__ "capture.log" 1))
     = Return (0x123, []).
Proof.
  intros Hts F Hif Hid Nid Hdata He Hsleep.
  destruct (strip_capture_line ts iface hexid hexdata Hdata) as [S1 S2].
  pose proof (MSG_RE_capture_line ts iface hexid hexdata Hts
                (float_of_str_nonempty _ _ F) Hif Hid Nid Hdata) as G.
  assert (E : forall line,
             strip (chr_eqb "010") line = capture_line ts iface hexid hexdata ->
             _parse_from_candump line self
             = (Return (parse_hex hexid, parse_hex_pairs hexdata),
                after_sleep self abstime (pacing_delay self abstime))).
  { intros line S. rewrite _parse_from_candump_eq. unfold groups.
    rewrite S, G, F. unfold sleep_accepts in Hsleep.
    destruct (float_div _ _) as [delay|] eqn:D; [|discriminate Hsleep].
    apply float_div_eq in D. fold (pacing_delay self abstime) in D. subst delay.
    destruct (time_sleep _) as [[]|]; [|discriminate Hsleep].
    cbv zeta.
    now rewrite (int_base16_upper_hex _ Hid Nid),
                (bytes_fromhex_upper_hex _ Hdata He). }
  split; [now apply E|]. split; [|vm_compute; reflexivity].
  now rewrite (E _ S1), (E _ S2).
Qed.

Lemma capture_valid_line_decodes_witness :
  _parse_from_candump (capture_line "0.0" "can0" "123" []) (__init__ "capture.log" 1)
  = (Return (parse_hex "123", parse_hex_pairs []),
     after_sleep (__init__ "capture.log" 1) 0
       (pacing_delay (__init__ "capture.log" 1) 0))
  /\ _parse_from_candump (capture_line "0.0" "can0" "123" [] ++ ["010"%char])
       (__init__ "capture.log" 1)
     = _parse_from_candump (capture_line "0.0" "can0" "123" []) (__init__ "capture.log" 1)
  /\ fst (_parse_from_candump "(0.0) can0 123#" (__init__ "capture.log" 1))
     = Return (0x123, []).
Proof.
  apply (capture_valid_line_decodes "0.0" "can0" "123" [] (__init__ "capture.log" 1) 0);
    try reflexivity.
  discriminate.
Defined.

(** C3, as stated, fails: on an object whose clock is past the line's
    timestamp, the valid line [(0.0) can0 123#] raises [ValueError] and no
    frame is returned. *)
Lemma valid_line_after_later_timestamp_raises :
  (open (unlines ["(5.0) can0 123#AA"; "(0.0) can0 123#"]) ;;;
   get_message ;;; get_message) (__init__ "capture.log" 1)
  = (Raise (ValueError "sleep length must be non-negative"),
     mk "capture.log" (Some []) 1 5 [5%float]).
Proof. vm_compute. reflexivity. Qed.

(** C5: the capture pattern stops group 3 at the first character that is
    not an upper-case hex digit and lets anything follow, so data with a
    character that is not a hex digit, or with lower-case digits, is cut
    short and a frame is returned; only an odd number of leading
    upper-case digits raises [InvalidFrame]. *)
Theorem capture_non_hex_data_returns_frame :
  fst (_parse_from_candump "(0.0) can0 123#ZZ" (__init__ "capture.log" 1))
  = Return (0x123, [])
  /\ fst (_parse_from_candump "(0.0) can0 123#AAZ" (__init__ "capture.log" 1))
     = Return (0x123, ["170"%char])
  /\ fst (_parse_from_candump "(0.0) can0 123#abc" (__init__ "capture.log" 1))
     = Return (0x123, [])
  /\ fst (_parse_from_candump "(0.0) can0 123#A" (__init__ "capture.log" 1))
     = Raise (InvalidFrame
                ("Can't decode message '(0.0) can0 123#A': "
                 ++ "'non-hexadecimal number found in fromhex() arg at position 1'")).
Proof. vm_compute. repeat split. Qed.

(** *** Supporting facts on the two halves of C5 and on C8 *)

Lemma fromhex_at_upper_hex_odd (s : str) (pos : nat) :
  forallb upper_hex s = true -> Nat.odd (List.length s) = true ->
  fromhex_at pos s = inr (pos + List.length s)%nat.
Proof.
  enough (H : forall n s pos, (List.length s <= n)%nat ->
            forallb upper_hex s = true -> Nat.odd (List.length s) = true ->
            fromhex_at pos s = inr (pos + List.length s)%nat)
    by (apply (H (List.length s)); lia).
  clear s pos. induction n as [|n IH]; intros s pos Hn Hs Ho.
  - destruct s; [discriminate Ho | simpl in Hn; lia].
  - destruct s as [|a [|b s]]; [discriminate Ho | |].
    + cbn [forallb] in Hs. apply andb_prop in Hs as [Ha _].
      destruct (upper_hex_facts a Ha) as (_ & _ & _ & _ & _ & _ & _ & Sa & Va & La).
      cbn [fromhex_at List.length]. unfold hex_value. rewrite Sa, Va, La.
      f_equal. lia.
    + cbn [forallb] in Hs. apply andb_prop in Hs as [Ha Hs].
      apply andb_prop in Hs as [Hb Hs].
      destruct (upper_hex_facts a Ha) as (_ & _ & _ & _ & _ & _ & _ & Sa & Va & La).
      destruct (upper_hex_facts b Hb) as (_ & _ & _ & _ & _ & _ & _ & _ & Vb & Lb).
      cbn [fromhex_at List.length]. unfold hex_value.
      rewrite Sa, Va, La, Vb, Lb, (IH s); trivial; [f_equal; lia | simpl in Hn; lia].
Qed.

(** A capture line whose data is an odd number of upper-case hex digits
    raises [InvalidFrame], once the pacing sleep has gone through. *)
Lemma capture_odd_hex_raises (ts iface hexid hexdata : str)
    (self : t) (abstime : float) :
  forallb dot_or_digit ts = true ->
  float_of_str ts = Return abstime ->
  no_char "010" iface = true ->
  forallb upper_hex hexid = true -> hexid <> [] ->
  forallb upper_hex hexdata = true -> Nat.odd (List.length hexdata) = true ->
  sleep_accepts self abstime = true ->
  exists msg,
    _parse_from_candump (capture_line ts iface hexid hexdata) self
    = (Raise (InvalidFrame msg), after_sleep self abstime (pacing_delay self abstime)).
Proof.
  intros Hts F Hif Hid Nid Hdata Ho Hsleep.
  destruct (strip_capture_line ts iface hexid hexdata Hdata) as [S1 _].
  pose proof (MSG_RE_capture_line ts iface hexid hexdata Hts
                (float_of_str_nonempty _ _ F) Hif Hid Nid Hdata) as G.
  rewrite _parse_from_candump_eq. unfold groups. rewrite S1, G, F.
  unfold sleep_accepts in Hsleep.
  destruct (float_div _ _) as [delay|] eqn:D; [|discriminate Hsleep].
  apply float_div_eq in D. fold (pacing_delay self abstime) in D. subst delay.
  destruct (time_sleep _) as [[]|]; [|discriminate Hsleep].
  cbv zeta. rewrite (int_base16_upper_hex _ Hid Nid). unfold bytes_fromhex.
  rewrite (fromhex_at_upper_hex_odd _ _ Hdata Ho). eauto.
Qed.

(** The decoder does not touch the file. *)
Lemma _parse_from_candump_file_object (line : str) (self : t) :
  file_object (snd (_parse_from_candump line self)) = file_object self.
Proof.
  rewrite _parse_from_candump_eq.
  destruct (groups line) as [[|a [|i [|d [|]]]]|]; try reflexivity.
  destruct (float_of_str a); [|reflexivity].
  destruct (float_div _ _); [|reflexivity].
  destruct (time_sleep _) as [[]|]; [|reflexivity]. cbv zeta.
  destruct (int_base16 i); [|reflexivity].
  destruct (bytes_fromhex d) as [|[]]; reflexivity.
Qed.

Lemma readline_last (line : str) :
  no_char "010" line = true ->
  readline (line ++ ["010"%char]) = (line ++ ["010"%char], []).
Proof.
  induction line as [|c line IH]; [reflexivity|]. cbn [no_char forallb].
  intro H. apply andb_prop in H as [Hc Hl]. apply negb_true_iff in Hc.
  cbn [app readline]. unfold no_char in IH. now rewrite Hc, (IH Hl).
Qed.

(** Whatever the last line of the file decodes to, nothing is left to
    read after it: the next call is the one [end_of_stream] speaks of. *)
Lemma last_line_leaves_nothing (line : str) (self : t) :
  no_char "010" line = true ->
  file_object self = Some (line ++ ["010"%char]) ->
  file_object (snd (get_message self)) = Some [].
Proof.
  intros Hl Hf. unfold get_message, bindM, get. rewrite Hf.
  rewrite (readline_last line Hl). unfold set_file_object.
  destruct (line ++ ["010"%char]) eqn:E; [now destruct line|].
  now rewrite _parse_from_candump_file_object.
Qed.

(** ** Further properties of the serial source *)

(** X1: the serial decoder lets no exception but [InvalidFrame] out: on
    every line it either returns a frame or raises [InvalidFrame] with one
    of its two messages, each ending with the [repr] of the line. *)
Theorem serial_parse_raises_only_InvalidFrame (line : bytes) :
  (exists frame_id data, SerialHandler._parse line = Return (frame_id, data))
  \/ SerialHandler._parse line
     = Raise (InvalidFrame ("Invalid frame " ++ bytes_repr line))
  \/ SerialHandler._parse line
     = Raise (InvalidFrame ("Wrong frame length or invalid data: " ++ bytes_repr line)).
Proof.
  unfold SerialHandler._parse.
  destruct (SerialHandler._parse_try line) as [[[frame_id frame_length] data]|e] eqn:E.
  - destruct (negb _); [right; right; reflexivity | left; eauto].
  - destruct (_parse_try_raises _ _ E) as [[m ->]|[m ->]]; right; left; reflexivity.
Qed.

Lemma _parse_returns_try (line : bytes) (frame_id : Z) (data : bytes) :
  SerialHandler._parse line = Return (frame_id, data) ->
  SerialHandler._parse_try line
  = Return (frame_id, Z.of_nat (List.length data), data).
Proof.
  unfold SerialHandler._parse.
  destruct (SerialHandler._parse_try line) as [[[i k] d]|e] eqn:E.
  - destruct (Z.eqb_spec (Z.of_nat (List.length d)) k) as [<-|_]; cbn [negb];
      [|discriminate].
    intro H. now injection H as <- <-.
  - destruct e; discriminate.
Qed.

(** X2: a frame is returned only for a line with four tokens whose second
    and third, less their first three and four characters, are integer
    literals, and the frame holds the first integer and exactly as many
    bytes as the second says: the bytes that the data field, colons
    removed, denotes in hexadecimal. *)
Theorem serial_parse_returns_only_consistent_frames
    (line : bytes) (frame_id : Z) (data : bytes) :
  SerialHandler._parse line = Return (frame_id, data) ->
  exists t0 f1 f2 f3,
    split ":" 3 line = [t0; f1; f2; f3]
    /\ PyLong_FromString 10 (skipn 3 f1) = Some frame_id
    /\ PyLong_FromString 10 (skipn 4 f2) = Some (Z.of_nat (List.length data))
    /\ unhex_pairs (replace ":" [] f3) = Some data
    /\ forallb is_hex (replace ":" [] f3) = true
    /\ List.length (replace ":" [] f3) = (2 * List.length data)%nat.
Proof.
  intro H. apply _parse_returns_try in H.
  unfold SerialHandler._parse_try, getitem, int_of_bytes, unhexlify, slice_from in H.
  destruct (split ":" 3 line) as [|t0 [|f1 [|f2 [|f3 [|f4 rest]]]]] eqn:S;
    cbn [nth_error bind] in H; try discriminate H.
  - destruct (PyLong_FromString 10 (skipn 3 f1)); cbn [bind] in H; discriminate H.
  - destruct (PyLong_FromString 10 (skipn 3 f1)); cbn [bind] in H; [|discriminate H].
    destruct (PyLong_FromString 10 (skipn 4 f2)); cbn [bind] in H; discriminate H.
  - destruct (PyLong_FromString 10 (skipn 3 f1)) as [i|] eqn:P1; cbn [bind] in H;
      [|discriminate H].
    destruct (PyLong_FromString 10 (skipn 4 f2)) as [k|] eqn:P2; cbn [bind] in H;
      [|discriminate H].
    destruct (Nat.odd _) eqn:Odd; cbn [bind] in H; [discriminate H|].
    destruct (unhex_pairs _) as [d|] eqn:U; cbn [bind] in H; [|discriminate H].
    injection H as -> -> ->.
    exists t0, f1, f2, f3. repeat split; trivial.
    + rewrite unhex_pairs_spec in U.
      destruct (Nat.even _ && forallb is_hex _) eqn:V; [|discriminate U].
      apply andb_prop in V as [_ V]. exact V.
    + pose proof (unhex_pairs_length _ _ U) as L. rewrite L.
      rewrite <- Nat.negb_even in Odd. apply negb_false_iff in Odd.
      apply Nat.even_spec in Odd as [m ->].
      rewrite Nat.div2_double. reflexivity.
  - exfalso. clear H. revert S. cbn [split].
    destruct (find_sep ":" line) as [[a b]|]; [|discriminate].
    destruct (find_sep ":" b) as [[a1 b1]|]; [|discriminate].
    destruct (find_sep ":" b1) as [[a2 b2]|]; discriminate.
Qed.

Lemma serial_parse_returns_only_consistent_frames_witness :
  exists t0 f1 f2 f3,
    split ":" 3 "FRAME:ID=246:LEN=2:AA:BB" = [t0; f1; f2; f3]
    /\ PyLong_FromString 10 (skipn 3 f1) = Some 246
    /\ PyLong_FromString 10 (skipn 4 f2)
       = Some (Z.of_nat (List.length ["170"; "187"]%char))
    /\ unhex_pairs (replace ":" [] f3) = Some ["170"; "187"]%char
    /\ forallb is_hex (replace ":" [] f3) = true
    /\ List.length (replace ":" [] f3) = (2 * List.length ["170"; "187"]%char)%nat.
Proof.
  apply (serial_parse_returns_only_consistent_frames
           "FRAME:ID=246:LEN=2:AA:BB" 246 ["170"; "187"]%char).
  reflexivity.
Defined.

(** The decoder on a line of four fields, whatever its first field and
    the first three and four characters of the next two. *)
Lemma parse_fields (tok0 f1 f2 f3 : str) (v k : Z) (data : bytes) :
  no_char ":" tok0 = true -> no_char ":" f1 = true -> no_char ":" f2 = true ->
  PyLong_FromString 10 (skipn 3 f1) = Some v ->
  PyLong_FromString 10 (skipn 4 f2) = Some k ->
  unhexlify (replace ":" [] f3) = Return data ->
  Z.of_nat (List.length data) = k ->
  SerialHandler._parse (tok0 ++ ":" ++ f1 ++ ":" ++ f2 ++ ":" ++ f3)
  = Return (v, data).
Proof.
  intros H0 H1 H2 P1 P2 U L.
  unfold SerialHandler._parse, SerialHandler._parse_try.
  rewrite (split_four tok0 f1 f2 f3 H0 H1 H2).
  cbn [getitem nth_error bind]. unfold slice_from, int_of_bytes.
  rewrite P1. cbn [bind]. rewrite P2. cbn [bind]. rewrite U. cbn [bind].
  now rewrite L, Z.eqb_refl.
Qed.

Lemma replace_colons (s : str) : replace ":" [] s = without_colons s.
Proof.
  induction s as [|c s IH]; [reflexivity|]. cbn [replace without_colons filter].
  fold (without_colons s). rewrite IH. now destruct (chr_eqb c ":").
Qed.

(** X3: the colons of the data field are not checked: wherever they
    stand, and however many there are, the data is read as the hex digits
    that remain once they are taken out.  The identifier and the length
    are decimal literals of at most 4300 digits, the most [int] takes. *)
Theorem serial_data_colons_anywhere (n k f3 : str) (pairs : list str) :
  decimal_literal n = true -> within_digit_limit n = true ->
  decimal_literal k = true -> within_digit_limit k = true ->
  forallb hex_byte_pair pairs = true ->
  without_colons f3 = List.concat pairs ->
  decimal_value k = Z.of_nat (List.length pairs) ->
  SerialHandler._parse ("FRAME:ID=" ++ n ++ ":LEN=" ++ k ++ ":" ++ f3)
  = Return (decimal_value n, map byte_of_pair pairs).
Proof.
  intros Hn Ln Hk Lk Hp Hf Hlen.
  replace ("FRAME:ID=" ++ n ++ ":LEN=" ++ k ++ ":" ++ f3)
    with ("FRAME" ++ ":" ++ ("ID=" ++ n) ++ ":" ++ ("LEN=" ++ k) ++ ":" ++ f3)
    by (now rewrite <- !app_assoc).
  apply (parse_fields _ _ _ _ _ (decimal_value k)).
  - reflexivity.
  - apply no_char_app; [reflexivity|].
    now apply no_colon_decimal, decimal_literal_digits.
  - apply no_char_app; [reflexivity|].
    now apply no_colon_decimal, decimal_literal_digits.
  - now apply PyLong_FromString_decimal.
  - now apply PyLong_FromString_decimal.
  - rewrite replace_colons, Hf. now apply unhexlify_concat.
  - now rewrite length_map.
Qed.

Lemma serial_data_colons_anywhere_witness :
  SerialHandler._parse ("FRAME:ID=" ++ "7" ++ ":LEN=" ++ "2" ++ ":" ++ ":A:AB:::B:")
  = Return (decimal_value "7", map byte_of_pair (map list_ascii_of_string ["AA"; "BB"])).
Proof.
  apply (serial_data_colons_anywhere "7" "2" ":A:AB:::B:"
           (map list_ascii_of_string ["AA"; "BB"]));
    reflexivity.
Defined.

Lemma PyLong_FromString_negative (ds : str) :
  decimal_literal ds = true -> within_digit_limit ds = true ->
  PyLong_FromString 10 ("-" ++ ds) = Some (- decimal_value ds).
Proof.
  destruct ds as [|c ds]; [discriminate|]. intros H Hlim. cbn [decimal_literal] in H.
  pose proof H as Hall. cbn [forallb] in H. apply andb_prop in H as [Hc Hds].
  destruct (is_decimal_facts c Hc) as (Hu & Hp & Hm & Hs & _ & _).
  apply within_limit_base10 in Hlim. cbn [List.length] in Hlim.
  unfold PyLong_FromString, PyLong_FromString_or_error.
  cbn [list_ascii_of_string app lstrip].
  replace (is_space "-") with false by reflexivity.
  cbn [skip_sign]. replace (chr_eqb "-" "+") with false by reflexivity.
  replace (chr_eqb "-" "-") with true by reflexivity.
  assert (Hpre : skip_prefix 10 (c :: ds) = c :: ds).
  { destruct ds as [|c1 ds']; [reflexivity|]. cbn [skip_prefix].
    replace (10 =? 16) with false by reflexivity.
    now rewrite andb_false_r. }
  rewrite Hpre, Hu, (long_from_string_base_decimal _ 0 0 Hall).
  cbn [List.length Nat.add]. rewrite Hlim. cbn [lstrip].
  unfold decimal_value. f_equal; lia.
Qed.

(** X4: the identifier is read by [int], sign included, and is not
    checked to be non-negative: a line with [ID=-<n>], for literals of at
    most 4300 digits, the most [int] takes, gives a frame with the
    identifier [-n]. *)
Theorem serial_negative_identifier (n k : str) (pairs : list str) :
  decimal_literal n = true -> within_digit_limit n = true ->
  decimal_literal k = true -> within_digit_limit k = true ->
  forallb hex_byte_pair pairs = true ->
  decimal_value k = Z.of_nat (List.length pairs) ->
  SerialHandler._parse ("FRAME:ID=-" ++ n ++ ":LEN=" ++ k ++ ":" ++ join ":" pairs)
  = Return (- decimal_value n, map byte_of_pair pairs).
Proof.
  intros Hn Ln Hk Lk Hp Hlen.
  replace ("FRAME:ID=-" ++ n ++ ":LEN=" ++ k ++ ":" ++ join ":" pairs)
    with ("FRAME" ++ ":" ++ ("ID=" ++ "-" ++ n) ++ ":" ++ ("LEN=" ++ k) ++ ":"
            ++ join ":" pairs)
    by (now rewrite <- !app_assoc).
  apply (parse_fields _ _ _ _ _ (decimal_value k)).
  - reflexivity.
  - apply no_char_app; [reflexivity|]. apply no_char_app; [reflexivity|].
    now apply no_colon_decimal, decimal_literal_digits.
  - apply no_char_app; [reflexivity|].
    now apply no_colon_decimal, decimal_literal_digits.
  - change (skipn 3 ("ID=" ++ "-" ++ n)) with ("-" ++ n).
    now apply PyLong_FromString_negative.
  - now apply PyLong_FromString_decimal.
  - rewrite (replace_join pairs Hp). now apply unhexlify_concat.
  - now rewrite length_map.
Qed.

Lemma serial_negative_identifier_witness :
  SerialHandler._parse ("FRAME:ID=-" ++ "5" ++ ":LEN=" ++ "1" ++ ":"
                          ++ join ":" (map list_ascii_of_string ["0f"]))
  = Return (- decimal_value "5", map byte_of_pair (map list_ascii_of_string ["0f"])).
Proof.
  apply (serial_negative_identifier "5" "1" (map list_ascii_of_string ["0f"]));
    reflexivity.
Defined.

Lemma find_sep_count (sep : ascii) (s a b : str) :
  find_sep sep s = Some (a, b) -> count_char sep s = S (count_char sep b).
Proof.
  revert a. induction s as [|c s IH]; intros a; [discriminate|].
  cbn [find_sep]. unfold count_char in *. cbn [count_occ].
  unfold chr_eqb. destruct (Ascii.eqb_spec c sep) as [->|Hne].
  - intro H. injection H as _ <-. now destruct (ascii_dec sep sep).
  - destruct (find_sep sep s) as [[a' b']|]; [|discriminate].
    intro H. injection H as _ <-.
    destruct (ascii_dec c sep) as [E|_]; [now elim Hne|]. now apply (IH a').
Qed.

Lemma length_split (sep : ascii) (m : nat) (s : str) :
  (List.length (split sep m s) <= S (count_char sep s))%nat.
Proof.
  revert s. induction m as [|m IH]; intro s; cbn [split]; [simpl; lia|].
  destruct (find_sep sep s) as [[a b]|] eqn:F; [|simpl; lia].
  rewrite (find_sep_count _ _ _ _ F). cbn [List.length].
  specialize (IH b). lia.
Qed.

(** X5: a line with fewer than three colons, the empty line included, has
    no data field: the decoder raises [InvalidFrame] with the message
    [Invalid frame] and the [repr] of the line. *)
Theorem serial_too_few_colons (line : bytes) :
  (count_char ":" line < 3)%nat ->
  SerialHandler._parse line
  = Raise (InvalidFrame ("Invalid frame " ++ bytes_repr line)).
Proof.
  intro H. unfold SerialHandler._parse.
  destruct (SerialHandler._parse_try line) as [[[frame_id frame_length] data]|e] eqn:E.
  - exfalso. destruct (_parse_try_returns _ _ _ _ E) as (M & _).
    unfold missing_token, tokens in M. apply Nat.ltb_ge in M.
    pose proof (length_split ":" 3 line). lia.
  - destruct (_parse_try_raises _ _ E) as [[m ->]|[m ->]]; reflexivity.
Qed.

Lemma serial_too_few_colons_witness :
  SerialHandler._parse "FRAME:ID=1:LEN=0"
  = Raise (InvalidFrame ("Invalid frame " ++ bytes_repr "FRAME:ID=1:LEN=0")).
Proof.
  apply (serial_too_few_colons "FRAME:ID=1:LEN=0"). vm_compute. lia.
Defined.

(** *** Reading a line from the device *)

Lemma endswith_snoc (s : str) (c d : ascii) :
  endswith (s ++ [c]) d = chr_eqb c d.
Proof. unfold endswith. now rewrite rev_app_distr. Qed.

Lemma endswith_no_char (s : str) (d : ascii) :
  no_char d s = true -> endswith s d = false.
Proof.
  destruct s as [|c s] using rev_ind; [reflexivity|]. intro H.
  unfold no_char in H. rewrite forallb_app in H. apply andb_prop in H as [_ H].
  cbn [forallb] in H. rewrite andb_true_r in H. apply negb_true_iff in H.
  now rewrite endswith_snoc.
Qed.

Lemma read_loop_fragments (acc tail : bytes) (frags rest : list bytes) :
  no_char "010" acc = true ->
  forallb (no_char "010") frags = true ->
  SerialHandler.read_loop acc (frags ++ [tail ++ ["010"%char]] ++ rest)
  = Some (acc ++ List.concat frags ++ tail ++ ["010"%char], rest).
Proof.
  revert acc. induction frags as [|f frags IH]; intros acc Hacc Hfr.
  - cbn [app List.concat SerialHandler.read_loop].
    rewrite (endswith_no_char _ _ Hacc).
    destruct rest as [|r rest]; cbn [SerialHandler.read_loop];
      now rewrite app_assoc, endswith_snoc, <- app_assoc.
  - cbn [forallb] in Hfr. apply andb_prop in Hfr as [Hf Hfr].
    cbn [app List.concat SerialHandler.read_loop].
    rewrite (endswith_no_char _ _ Hacc).
    change (frags ++ (tail ++ ["010"%char]) :: rest)
      with (frags ++ [tail ++ ["010"%char]] ++ rest).
    rewrite IH; [now rewrite <- !app_assoc | now apply no_char_app | exact Hfr].
Qed.

Lemma strip_app_drop (p : ascii -> bool) (s : str) (c : ascii) :
  p c = true -> strip p (s ++ [c]) = strip p s.
Proof.
  intro Hc. unfold strip. induction s as [|d s IH].
  - cbn [app lstrip rstrip]. now rewrite Hc.
  - cbn [app lstrip]. destruct (p d); [exact IH|].
    now apply (rstrip_app_drop p (d :: s)).
Qed.

Lemma read_until_newline_fragments (tail : bytes) (frags rest : list bytes) :
  forallb (no_char "010") frags = true ->
  no_char "010" tail = true ->
  SerialHandler._read_until_newline (frags ++ [tail ++ ["010"%char]] ++ rest)
  = Some (strip is_space (List.concat frags ++ tail), rest).
Proof.
  intros Hfr Ht. unfold SerialHandler._read_until_newline.
  destruct frags as [|f frags].
  - cbn [app List.concat]. destruct rest as [|r rest]; cbn [SerialHandler.read_loop];
      rewrite endswith_snoc; cbn [chr_eqb]; rewrite Ascii.eqb_refl;
      now rewrite strip_app_drop.
  - cbn [forallb] in Hfr. apply andb_prop in Hfr as [Hf Hfr].
    cbn [app]. change (frags ++ (tail ++ ["010"%char]) :: rest)
      with (frags ++ [tail ++ ["010"%char]] ++ rest).
    rewrite (read_loop_fragments f tail frags rest Hf Hfr).
    cbn [List.concat]. rewrite <- app_assoc.
    replace (f ++ List.concat frags ++ tail ++ ["010"%char])
      with ((f ++ List.concat frags ++ tail) ++ ["010"%char])
      by (now rewrite <- !app_assoc).
    now rewrite strip_app_drop.
Qed.

(** X6: however the device cuts a line into reads, empty reads included,
    [_read_until_newline] returns the line put together again, without
    its newline and without the white space around it, and leaves the
    reads that follow the newline untouched. *)
Theorem read_until_newline_reassembles (tail : bytes) (frags rest : list bytes) :
  forallb (no_char "010") frags = true ->
  no_char "010" tail = true ->
  SerialHandler._read_until_newline (frags ++ [tail ++ ["010"%char]] ++ rest)
  = Some (strip is_space (List.concat frags ++ tail), rest)
  /\ SerialHandler._read_until_newline (frags ++ [tail ++ ["010"%char]] ++ rest)
     = SerialHandler._read_until_newline
         ([List.concat frags ++ tail ++ ["010"%char]] ++ rest).
Proof.
  intros Hfr Ht. split; [now apply read_until_newline_fragments|].
  rewrite (read_until_newline_fragments tail frags rest Hfr Ht).
  assert (Hall : no_char "010" (List.concat frags ++ tail) = true).
  { apply no_char_app; [|exact Ht]. clear - Hfr.
    induction frags as [|f frags IH]; [reflexivity|]. cbn [forallb List.concat] in *.
    apply andb_prop in Hfr as [Hf Hfr]. apply no_char_app; auto. }
  pose proof (read_until_newline_fragments (List.concat frags ++ tail) [] rest
                eq_refl Hall) as E.
  cbn [app List.concat] in E. rewrite <- app_assoc in E. cbn [app].
  rewrite E. reflexivity.
Qed.

Lemma read_until_newline_reassembles_witness :
  SerialHandler._read_until_newline
    (map list_ascii_of_string ["FRAME:ID=1:L"; ""; "EN=1"] ++ [":AB " ++ ["010"%char]]
       ++ map list_ascii_of_string ["FRA"])
  = Some (strip is_space
            (List.concat (map list_ascii_of_string ["FRAME:ID=1:L"; ""; "EN=1"]) ++ ":AB "),
          map list_ascii_of_string ["FRA"])
  /\ SerialHandler._read_until_newline
       (map list_ascii_of_string ["FRAME:ID=1:L"; ""; "EN=1"] ++ [":AB " ++ ["010"%char]]
          ++ map list_ascii_of_string ["FRA"])
     = SerialHandler._read_until_newline
         ([List.concat (map list_ascii_of_string ["FRAME:ID=1:L"; ""; "EN=1"])
             ++ ":AB " ++ ["010"%char]] ++ map list_ascii_of_string ["FRA"]).
Proof.
  apply (read_until_newline_reassembles ":AB "
           (map list_ascii_of_string ["FRAME:ID=1:L"; ""; "EN=1"])
           (map list_ascii_of_string ["FRA"]));
    reflexivity.
Defined.

Lemma not_space_not_newline (s : str) :
  forallb (fun c => negb (is_space c)) s = true -> no_char "010" s = true.
Proof.
  induction s as [|c s IH]; [reflexivity|]. cbn [forallb no_char]. intro H.
  apply andb_prop in H as [Hc Hs]. unfold no_char in IH. rewrite (IH Hs), andb_true_r.
  revert Hc. ascii_cases c; vm_compute; intro Hc; try discriminate Hc; reflexivity.
Qed.

Lemma no_space_decimal (s : str) :
  forallb is_decimal s = true -> forallb (fun c => negb (is_space c)) s = true.
Proof.
  induction s as [|c s IH]; [reflexivity|]. cbn [forallb]. intro H.
  apply andb_prop in H as [Hc Hs]. rewrite (IH Hs), andb_true_r.
  destruct (is_decimal_facts c Hc) as (_ & _ & _ & -> & _). reflexivity.
Qed.

Lemma no_space_join_pairs (pairs : list str) :
  forallb hex_byte_pair pairs = true ->
  forallb (fun c => negb (is_space c)) (join ":" pairs) = true.
Proof.
  assert (P : forall p, hex_byte_pair p = true ->
                        forallb (fun c => negb (is_space c)) p = true).
  { assert (Q : forall c, is_hex c = true -> negb (is_space c) = true)
      by (intro c; ascii_cases c; vm_compute; intro Hc; try discriminate Hc;
          reflexivity).
    intros [|a [|b [|c p]]]; try discriminate. cbn [hex_byte_pair forallb].
    intro H. apply andb_prop in H as [Ha Hb]. now rewrite (Q a Ha), (Q b Hb). }
  induction pairs as [|p pairs IH]; [reflexivity|]. cbn [forallb]. intro H.
  apply andb_prop in H as [Hp Hps]. destruct pairs as [|q pairs].
  - cbn [join]. now apply P.
  - change (join ":" (p :: q :: pairs)) with (p ++ ":" ++ join ":" (q :: pairs)).
    rewrite !forallb_app, (P p Hp), (IH Hps). reflexivity.
Qed.

Lemma no_space_serial_line (n k : str) (pairs : list str) :
  decimal_literal n = true -> decimal_literal k = true ->
  forallb hex_byte_pair pairs = true ->
  forallb (fun c => negb (is_space c)) (serial_line n k pairs) = true.
Proof.
  intros Hn Hk Hp. unfold serial_line.
  rewrite !forallb_app, (no_space_decimal n), (no_space_decimal k),
    (no_space_join_pairs pairs); trivial; now apply decimal_literal_digits.
Qed.

Lemma rstrip_app_spaces (p : ascii -> bool) (s ws : str) :
  forallb p ws = true -> rstrip p (s ++ ws) = rstrip p s.
Proof.
  induction ws as [|c ws IH] using rev_ind; [now rewrite app_nil_r|].
  rewrite forallb_app. cbn [forallb]. intro H. apply andb_prop in H as [Hws Hc].
  rewrite andb_true_r in Hc. now rewrite app_assoc, rstrip_app_drop, IH.
Qed.

Lemma strip_serial_line (n k : str) (pairs : list str) (ws : str) :
  decimal_literal n = true -> decimal_literal k = true ->
  forallb hex_byte_pair pairs = true ->
  forallb is_space ws = true ->
  strip is_space (serial_line n k pairs ++ ws) = serial_line n k pairs.
Proof.
  intros Hn Hk Hp Hws. unfold strip.
  change (lstrip is_space (serial_line n k pairs ++ ws))
    with (serial_line n k pairs ++ ws).
  rewrite (rstrip_app_spaces _ _ _ Hws).
  now apply rstrip_keep, no_space_serial_line.
Qed.

Lemma no_char_concat (c : ascii) (l : list str) :
  no_char c (List.concat l) = true -> forallb (no_char c) l = true.
Proof.
  induction l as [|x l IH]; [reflexivity|]. cbn [List.concat forallb].
  unfold no_char at 1. rewrite forallb_app. intro H.
  apply andb_prop in H as [Hx Hl]. unfold no_char at 1. now rewrite Hx, IH.
Qed.

(** X7: a valid serial line, its numbers of at most 4300 digits, that
    arrives in pieces, with white space such as a carriage return before
    its newline, is decoded as if it had come whole: [get_message] returns
    its frame and leaves the reads that follow the newline for the next
    call. *)
Theorem serial_get_message_fragmented (n k : str) (pairs : list str)
    (ws tail : bytes) (frags rest : list bytes) :
  decimal_literal n = true -> within_digit_limit n = true ->
  decimal_literal k = true -> within_digit_limit k = true ->
  forallb hex_byte_pair pairs = true ->
  decimal_value k = Z.of_nat (List.length pairs) ->
  forallb is_space ws = true -> no_char "010" ws = true ->
  List.concat frags ++ tail = serial_line n k pairs ++ ws ->
  SerialHandler.get_message (frags ++ [tail ++ ["010"%char]] ++ rest)
  = Some (Return (decimal_value n, map byte_of_pair pairs), rest).
Proof.
  intros Hn Ln Hk Lk Hp Hlen Hws Hnl Hcat.
  assert (Hall : no_char "010" (List.concat frags ++ tail) = true).
  { rewrite Hcat. apply no_char_app; [|exact Hnl].
    now apply not_space_not_newline, no_space_serial_line. }
  unfold no_char in Hall. rewrite forallb_app in Hall.
  apply andb_prop in Hall as [Hfr Ht].
  unfold SerialHandler.get_message.
  rewrite (read_until_newline_fragments tail frags rest
             (no_char_concat _ _ Hfr) Ht).
  rewrite Hcat, (strip_serial_line n k pairs ws Hn Hk Hp Hws).
  change (serial_line n k pairs)
    with (unmarked_line "FRAME" "ID=" "LEN=" n k pairs).
  now rewrite parse_unmarked_line.
Qed.

Lemma serial_get_message_fragmented_witness :
  SerialHandler.get_message
    (map list_ascii_of_string ["FRAME:ID=24"; ""; "6:LEN=2:A"]
       ++ [list_ascii_of_string "A:BB" ++ ["013"%char] ++ ["010"%char]]
       ++ map list_ascii_of_string ["FRAME"])
  = Some (Return (decimal_value "246",
                  map byte_of_pair (map list_ascii_of_string ["AA"; "BB"])),
          map list_ascii_of_string ["FRAME"]).
Proof.
  apply (serial_get_message_fragmented "246" "2"
           (map list_ascii_of_string ["AA"; "BB"]) ["013"%char]
           (list_ascii_of_string "A:BB" ++ ["013"%char])
           (map list_ascii_of_string ["FRAME:ID=24"; ""; "6:LEN=2:A"])
           (map list_ascii_of_string ["FRAME"]));
    reflexivity.
Defined.

(** *** Round trip *)

Lemma fold_decimal_uint (d : Decimal.uint) (acc : Z) :
  fold_left (fun a c => a * 10 + (ord c - 48))
    (list_ascii_of_string (DecimalString.NilEmpty.string_of_uint d)) acc
  = uint_value d acc.
Proof.
  revert acc. induction d; intro acc; cbn [DecimalString.NilEmpty.string_of_uint
    list_ascii_of_string fold_left uint_value]; try reflexivity; now rewrite IHd.
Qed.

Lemma of_uint_acc_value (d : Decimal.uint) (acc : positive) :
  Z.pos (Pos.of_uint_acc d acc) = uint_value d (Z.pos acc).
Proof.
  revert acc. induction d; intro acc; cbn [Pos.of_uint_acc uint_value];
    try reflexivity; rewrite IHd; f_equal; lia.
Qed.

Lemma of_uint_value (d : Decimal.uint) :
  Z.of_N (Pos.of_uint d) = uint_value d 0.
Proof.
  induction d; cbn [Pos.of_uint uint_value]; try reflexivity; try exact IHd;
    cbn [Z.of_N]; now rewrite of_uint_acc_value.
Qed.

Lemma digits_of_uint (d : Decimal.uint) :
  forallb is_decimal
    (list_ascii_of_string (DecimalString.NilEmpty.string_of_uint d)) = true.
Proof.
  induction d; cbn [DecimalString.NilEmpty.string_of_uint list_ascii_of_string forallb];
    try reflexivity; now rewrite IHd.
Qed.

Lemma str_of_N_literal (n : N) :
  decimal_literal (str_of_N n) = true /\ decimal_value (str_of_N n) = Z.of_N n.
Proof.
  unfold str_of_N, DecimalString.NilZero.string_of_uint, decimal_value.
  pose proof (DecimalN.Unsigned.of_to n) as E. unfold N.of_uint in E.
  destruct (N.to_uint n) as [|d|d|d|d|d|d|d|d|d|d] eqn:T;
    cbv beta iota;
    (split;
     [ first [ reflexivity | exact (digits_of_uint _) ]
     | first [ rewrite <- E; reflexivity
             | rewrite fold_decimal_uint, <- of_uint_value, E; reflexivity ] ]).
Qed.

Lemma pair_of_byte_round_trip (c : ascii) :
  hex_byte_pair (pair_of_byte c) = true /\ byte_of_pair (pair_of_byte c) = c
  /\ forallb upper_hex (pair_of_byte c) = true
  /\ parse_hex_pairs (pair_of_byte c) = [c].
Proof. ascii_cases c; vm_compute; repeat split. Qed.

Lemma map_pair_of_byte (data : bytes) :
  forallb hex_byte_pair (map pair_of_byte data) = true
  /\ map byte_of_pair (map pair_of_byte data) = data.
Proof.
  induction data as [|c data [IH1 IH2]]; [split; reflexivity|].
  destruct (pair_of_byte_round_trip c) as (H1 & H2 & _).
  cbn [map forallb]. now rewrite H1, IH1, H2, IH2.
Qed.

(** X8: decoding inverts the serial format.  The canonical line of a
    frame, with its identifier and length in decimal and its bytes as
    upper-case hex pairs, decodes to that frame: every identifier from 0
    up and every payload can be sent and is received unchanged, as long as
    the identifier and the length are written with at most 4300 digits,
    the most [int] takes. *)
Theorem serial_round_trip (frame_id : N) (data : bytes) :
  within_digit_limit (str_of_N frame_id) = true ->
  within_digit_limit (str_of_N (N.of_nat (List.length data))) = true ->
  SerialHandler._parse (encode_serial frame_id data)
  = Return (Z.of_N frame_id, data).
Proof.
  intros B1 B2.
  destruct (str_of_N_literal frame_id) as [L1 V1].
  destruct (str_of_N_literal (N.of_nat (List.length data))) as [L2 V2].
  destruct (map_pair_of_byte data) as [P1 P2].
  unfold encode_serial.
  change (serial_line ?n ?k ?p) with (unmarked_line "FRAME" "ID=" "LEN=" n k p).
  rewrite parse_unmarked_line; trivial.
  - now rewrite V1, P2.
  - rewrite V2, length_map. lia.
Qed.

Lemma serial_round_trip_witness :
  SerialHandler._parse (encode_serial 2047 ["000"; "255"; "016"]%char)
  = Return (Z.of_N 2047, ["000"; "255"; "016"]%char).
Proof.
  apply (serial_round_trip 2047 ["000"; "255"; "016"]%char); reflexivity.
Defined.

(** ** Further properties of the replay source *)

Lemma time_sleep_accepted (d : float) :
  time_sleep d = Return tt -> proper_duration d = true.
Proof.
  unfold time_sleep, proper_duration.
  destruct (PrimFloat.is_nan d); [discriminate|].
  destruct (negb (_ && _)); [discriminate|].
  destruct (PrimFloat.ltb d 0); [discriminate | reflexivity].
Qed.

(** What a call of the decoder does to the object: nothing, or one sleep
    of a duration that [time.sleep] took and the clock set. *)
Lemma _parse_from_candump_effect (line : str) (self : t) :
  snd (_parse_from_candump line self) = self
  \/ exists abstime,
       timestamp line = Some abstime
       /\ time_sleep (pacing_delay self abstime) = Return tt
       /\ snd (_parse_from_candump line self)
          = after_sleep self abstime (pacing_delay self abstime).
Proof.
  rewrite _parse_from_candump_eq. unfold timestamp.
  destruct (groups line) as [[|a [|i [|d [|]]]]|]; try (left; reflexivity).
  destruct (float_of_str a) as [abstime|]; [|left; reflexivity].
  destruct (float_div _ _) as [delay|] eqn:D; [|left; reflexivity].
  apply float_div_eq in D. fold (pacing_delay self abstime) in D. subst delay.
  destruct (time_sleep _) as [[]|] eqn:S; [|left; reflexivity].
  right. exists abstime. repeat split; trivial. cbv zeta.
  destruct (int_base16 i); [|reflexivity].
  destruct (bytes_fromhex d) as [|[]]; reflexivity.
Qed.

Lemma strip_newline_line (line : str) :
  no_char "010" line = true ->
  strip (chr_eqb "010") (line ++ ["010"%char]) = line
  /\ strip (chr_eqb "010") line = line.
Proof.
  intro H.
  assert (K : strip (chr_eqb "010") line = line).
  { unfold strip.
    assert (R : rstrip (chr_eqb "010") line = line).
    { apply rstrip_keep. clear - H. induction line as [|c l IH]; [reflexivity|].
      cbn [no_char forallb] in *. apply andb_prop in H as [Hc Hl].
      unfold no_char in IH. rewrite (IH Hl), andb_true_r.
      unfold chr_eqb in *. now rewrite Ascii.eqb_sym. }
    destruct line as [|c l]; [reflexivity|]. cbn [lstrip].
    cbn [no_char forallb] in H. apply andb_prop in H as [Hc _].
    apply negb_true_iff in Hc. unfold chr_eqb in *.
    rewrite Ascii.eqb_sym, Hc. exact R. }
  split; [|exact K]. now rewrite strip_app_drop.
Qed.

Lemma _parse_from_candump_strip (line line' : str) (self : t) :
  strip (chr_eqb "010") line = strip (chr_eqb "010") line' ->
  _parse_from_candump line self = _parse_from_candump line' self.
Proof.
  intro H. rewrite !_parse_from_candump_eq. unfold groups. now rewrite H.
Qed.

Lemma readline_line (line rest : str) :
  no_char "010" line = true ->
  readline (line ++ "010"%char :: rest) = (line ++ ["010"%char], rest).
Proof.
  induction line as [|c line IH]; [reflexivity|]. cbn [no_char forallb].
  intro H. apply andb_prop in H as [Hc Hl]. apply negb_true_iff in Hc.
  cbn [app readline]. unfold no_char in IH. now rewrite Hc, (IH Hl).
Qed.

Lemma readline_unterminated (line : str) :
  no_char "010" line = true -> readline line = (line, []).
Proof.
  induction line as [|c line IH]; [reflexivity|]. cbn [no_char forallb].
  intro H. apply andb_prop in H as [Hc Hl]. apply negb_true_iff in Hc.
  cbn [readline]. unfold no_char in IH. now rewrite Hc, (IH Hl).
Qed.

Lemma get_message_line (line rest : str) (self : t) :
  no_char "010" line = true ->
  file_object self = Some (line ++ "010"%char :: rest) ->
  get_message self = _parse_from_candump line (with_file self rest).
Proof.
  intros Hl Hf. unfold get_message, bindM, get. rewrite Hf.
  rewrite (readline_line line rest Hl). unfold set_file_object.
  fold (with_file self rest).
  destruct (line ++ ["010"%char]) eqn:E; [now destruct line|]. rewrite <- E.
  apply _parse_from_candump_strip.
  destruct (strip_newline_line line Hl) as [-> ->]. reflexivity.
Qed.

Lemma _parse_from_candump_attributes (line : str) (self : t) :
  file_path (snd (_parse_from_candump line self)) = file_path self
  /\ file_object (snd (_parse_from_candump line self)) = file_object self
  /\ speed_scale (snd (_parse_from_candump line self)) = speed_scale self.
Proof.
  destruct (_parse_from_candump_effect line self) as [->|(t0 & _ & _ & ->)];
    repeat split.
Qed.

(** X9: [get_message] decodes the first line of what is left of the file,
    newline excluded, and whatever the outcome, a frame or an exception,
    it consumes exactly that line: the lines after it are left for the
    next calls, so a caller can skip a bad line and go on.  The path and
    the speed scale never change. *)
Theorem get_message_consumes_one_line (line rest : str) (self : t) :
  no_char "010" line = true ->
  file_object self = Some (line ++ "010"%char :: rest) ->
  get_message self = _parse_from_candump line (with_file self rest)
  /\ file_object (snd (get_message self)) = Some rest
  /\ file_path (snd (get_message self)) = file_path self
  /\ speed_scale (snd (get_message self)) = speed_scale self.
Proof.
  intros Hl Hf. rewrite (get_message_line line rest self Hl Hf).
  destruct (_parse_from_candump_attributes line (with_file self rest))
    as (A & B & C).
  rewrite A, B, C. repeat split.
Qed.

Lemma get_message_consumes_one_line_witness :
  get_message (mk "capture.log" (Some (unlines ["garbage"; "(0.0) can0 123#AA"])) 1 0 [])
  = _parse_from_candump "garbage"
      (with_file (mk "capture.log" (Some (unlines ["garbage"; "(0.0) can0 123#AA"])) 1 0 [])
         (unlines ["(0.0) can0 123#AA"]))
  /\ file_object
       (snd (get_message
               (mk "capture.log" (Some (unlines ["garbage"; "(0.0) can0 123#AA"])) 1 0 [])))
     = Some (unlines ["(0.0) can0 123#AA"])
  /\ file_path
       (snd (get_message
               (mk "capture.log" (Some (unlines ["garbage"; "(0.0) can0 123#AA"])) 1 0 [])))
     = file_path (mk "capture.log" (Some (unlines ["garbage"; "(0.0) can0 123#AA"])) 1 0 [])
  /\ speed_scale
       (snd (get_message
               (mk "capture.log" (Some (unlines ["garbage"; "(0.0) can0 123#AA"])) 1 0 [])))
     = speed_scale (mk "capture.log" (Some (unlines ["garbage"; "(0.0) can0 123#AA"])) 1 0 []).
Proof.
  apply (get_message_consumes_one_line "garbage" (unlines ["(0.0) can0 123#AA"])
           (mk "capture.log" (Some (unlines ["garbage"; "(0.0) can0 123#AA"])) 1 0 []));
    reflexivity.
Defined.

(** X10: a last line that the file does not end with a newline is
    decoded like any other, and nothing is left after it: the next call
    raises [EOFError]. *)
Theorem get_message_unterminated_last_line (line : str) (self : t) :
  no_char "010" line = true -> line <> [] ->
  file_object self = Some line ->
  get_message self = _parse_from_candump line (with_file self [])
  /\ fst (get_message (snd (get_message self))) = Raise EOFError.
Proof.
  intros Hl Nl Hf.
  assert (E : get_message self = _parse_from_candump line (with_file self [])).
  { unfold get_message, bindM, get. rewrite Hf.
    rewrite (readline_unterminated line Hl). unfold set_file_object.
    fold (with_file self []). destruct line; [now elim Nl | reflexivity]. }
  split; [exact E|]. rewrite E.
  destruct (_parse_from_candump_attributes line (with_file self [])) as (_ & B & _).
  unfold get_message at 1, bindM, get. rewrite B. reflexivity.
Qed.

Lemma get_message_unterminated_last_line_witness :
  get_message (mk "capture.log" (Some (list_ascii_of_string "(0.0) can0 123#AA")) 1 0 [])
  = _parse_from_candump "(0.0) can0 123#AA"
      (with_file (mk "capture.log" (Some (list_ascii_of_string "(0.0) can0 123#AA")) 1 0 []) [])
  /\ fst (get_message
            (snd (get_message (mk "capture.log" (Some (list_ascii_of_string "(0.0) can0 123#AA")) 1 0 []))))
     = Raise EOFError.
Proof.
  apply (get_message_unterminated_last_line "(0.0) can0 123#AA"
           (mk "capture.log" (Some (list_ascii_of_string "(0.0) can0 123#AA")) 1 0 []));
    [reflexivity | discriminate | reflexivity].
Defined.

(** X11: the pattern is anchored at the start of the line: a line that,
    its newlines stripped, does not open with a parenthesis (a blank
    line, a line with leading white space, a comment) raises
    [InvalidFrame] with the stripped line in the message; nothing is slept
    and the object is unchanged. *)
Theorem line_without_paren_is_invalid (line : str) (self : t) :
  opens_with_paren line = false ->
  _parse_from_candump line self
  = (Raise (InvalidFrame ("Wrong format: '" ++ strip (chr_eqb "010") line ++ "'")),
     self).
Proof.
  unfold opens_with_paren. intro H. rewrite _parse_from_candump_eq.
  unfold groups.
  replace (re_match MSG_RE (strip (chr_eqb "010") line)) with (@None (list str));
    [reflexivity|].
  symmetry. unfold MSG_RE. cbn [re_match lit quant chars].
  destruct (strip (chr_eqb "010") line) as [|c l]; [reflexivity|].
  unfold chr_eqb in *. now rewrite Ascii.eqb_sym, H.
Qed.

Lemma line_without_paren_is_invalid_witness :
  _parse_from_candump ["010"%char] (__init__ "capture.log" 1)
  = (Raise (InvalidFrame
              ("Wrong format: '" ++ strip (chr_eqb "010") ["010"%char] ++ "'")),
     __init__ "capture.log" 1).
Proof.
  apply (line_without_paren_is_invalid ["010"%char] (__init__ "capture.log" 1)).
  reflexivity.
Defined.

(** *** What follows the data, and round trips *)

(** The pattern on a capture line followed by text that cannot continue
    the data nor start another identifier. *)
Lemma MSG_RE_capture_line_then (ts iface hexid hexdata junk : str) :
  forallb dot_or_digit ts = true -> ts <> [] ->
  no_char "010" iface = true ->
  forallb upper_hex hexid = true -> hexid <> [] ->
  forallb upper_hex hexdata = true ->
  match junk with [] => True | c :: _ => upper_hex c = false end ->
  no_char " " junk = true -> no_char "010" junk = true ->
  re_match MSG_RE (capture_line ts iface hexid hexdata ++ junk)
  = Some [ts; hexid; hexdata].
Proof.
  intros Hts Nts Hif Hid Nid Hdata Hj Sj Nj.
  destruct (no_space_upper_hex _ Hid) as [Sid Aid].
  destruct (no_space_upper_hex _ Hdata) as [Sdata Adata].
  assert (Aj : forallb any_char junk = true) by exact Nj.
  assert (Aif : forallb any_char iface = true) by exact Hif.
  unfold capture_line, MSG_RE. rewrite <- !app_assoc.
  cbn [list_ascii_of_string app].
  apply re_match_lit.
  apply (re_match_run dot_or_digit OneOrMore true _ ts (")"%char :: _));
    [discriminate | exact Hts | reflexivity | destruct ts; [now elim Nts | simpl; lia] |].
  apply re_match_lit.
  change (" "%char :: iface ++ " "%char :: hexid ++ "#"%char :: hexdata ++ junk)
    with ((" "%char :: iface) ++ " " ++ (hexid ++ "#"%char :: hexdata ++ junk)).
  apply re_match_any_then_space.
  - repeat (rewrite forallb_app || cbn [forallb app list_ascii_of_string]).
    now rewrite Aif, Aid, Adata, Aj.
  - unfold no_char in *. rewrite forallb_app. cbn [forallb].
    rewrite forallb_app. now rewrite Sid, Sdata, Sj.
  - apply (re_match_run upper_hex OneOrMore true _ hexid ("#"%char :: _));
      [discriminate | exact Hid | reflexivity | destruct hexid; [now elim Nid | simpl; lia] |].
    apply re_match_lit.
    apply (re_match_run upper_hex ZeroOrMore true [] hexdata junk);
      [discriminate | exact Hdata | exact Hj | lia | reflexivity].
Qed.

Lemma strip_capture_line_then (ts iface hexid hexdata junk : str) :
  forallb upper_hex hexdata = true ->
  no_char "010" junk = true ->
  strip (chr_eqb "010") (capture_line ts iface hexid hexdata ++ junk)
  = capture_line ts iface hexid hexdata ++ junk.
Proof.
  intros Hdata Nj. destruct junk as [|c junk].
  - rewrite app_nil_r. now apply strip_capture_line.
  - unfold strip.
    change (lstrip (chr_eqb "010") (capture_line ts iface hexid hexdata ++ c :: junk))
      with (capture_line ts iface hexid hexdata ++ c :: junk).
    apply rstrip_app_keep; [discriminate|]. apply rstrip_keep.
    clear - Nj. revert Nj. generalize (c :: junk). intros l Nj.
    induction l as [|d l IH]; [reflexivity|].
    cbn [no_char forallb] in *. apply andb_prop in Nj as [Hd Hl].
    unfold no_char in IH. rewrite (IH Hl), andb_true_r.
    unfold chr_eqb in *. now rewrite Ascii.eqb_sym.
Qed.

Lemma decode_capture_line_then (ts iface hexid hexdata junk : str)
    (self : t) (abstime : float) :
  forallb dot_or_digit ts = true ->
  float_of_str ts = Return abstime ->
  no_char "010" iface = true ->
  forallb upper_hex hexid = true -> hexid <> [] ->
  forallb upper_hex hexdata = true -> Nat.even (List.length hexdata) = true ->
  match junk with [] => True | c :: _ => upper_hex c = false end ->
  no_char " " junk = true -> no_char "010" junk = true ->
  sleep_accepts self abstime = true ->
  _parse_from_candump (capture_line ts iface hexid hexdata ++ junk) self
  = (Return (parse_hex hexid, parse_hex_pairs hexdata),
     after_sleep self abstime (pacing_delay self abstime)).
Proof.
  intros Hts F Hif Hid Nid Hdata He Hj Sj Nj Hsleep.
  rewrite _parse_from_candump_eq. unfold groups.
  rewrite (strip_capture_line_then ts iface hexid hexdata junk Hdata Nj).
  rewrite (MSG_RE_capture_line_then ts iface hexid hexdata junk Hts
             (float_of_str_nonempty _ _ F) Hif Hid Nid Hdata Hj Sj Nj), F.
  unfold sleep_accepts in Hsleep.
  destruct (float_div _ _) as [delay|] eqn:D; [|discriminate Hsleep].
  apply float_div_eq in D. fold (pacing_delay self abstime) in D. subst delay.
  destruct (time_sleep _) as [[]|]; [|discriminate Hsleep].
  cbv zeta.
  now rewrite (int_base16_upper_hex _ Hid Nid), (bytes_fromhex_upper_hex _ Hdata He).
Qed.

(** X12: the pattern is not anchored at the end of the line.  Text after
    the data that starts with a character other than an upper-case hex
    digit, and holds no space and no newline, is ignored: the line
    decodes as it does without it. *)
Theorem capture_trailing_text_ignored (ts iface hexid hexdata junk : str)
    (self : t) (abstime : float) :
  forallb dot_or_digit ts = true ->
  float_of_str ts = Return abstime ->
  no_char "010" iface = true ->
  forallb upper_hex hexid = true -> hexid <> [] ->
  forallb upper_hex hexdata = true -> Nat.even (List.length hexdata) = true ->
  match junk with [] => true | c :: _ => negb (upper_hex c) end = true ->
  no_char " " junk = true -> no_char "010" junk = true ->
  sleep_accepts self abstime = true ->
  _parse_from_candump (capture_line ts iface hexid hexdata ++ junk) self
  = (Return (parse_hex hexid, parse_hex_pairs hexdata),
     after_sleep self abstime (pacing_delay self abstime))
  /\ _parse_from_candump (capture_line ts iface hexid hexdata ++ junk) self
     = _parse_from_candump (capture_line ts iface hexid hexdata) self.
Proof.
  intros Hts F Hif Hid Nid Hdata He Hj Sj Nj Hsleep.
  assert (Hj' : match junk with [] => True | c :: _ => upper_hex c = false end).
  { destruct junk; [exact I|]. now apply negb_true_iff in Hj. }
  rewrite (decode_capture_line_then ts iface hexid hexdata junk self abstime);
    trivial.
  split; [reflexivity|].
  pose proof (decode_capture_line_then ts iface hexid hexdata [] self abstime
                Hts F Hif Hid Nid Hdata He I eq_refl eq_refl Hsleep) as E.
  rewrite app_nil_r in E. now rewrite E.
Qed.

Lemma capture_trailing_text_ignored_witness :
  _parse_from_candump (capture_line "0.5" "can0" "1A" "AA" ++ "#xyz")
    (__init__ "capture.log" 1)
  = (Return (parse_hex "1A", parse_hex_pairs "AA"),
     after_sleep (__init__ "capture.log" 1) 0.5
       (pacing_delay (__init__ "capture.log" 1) 0.5))
  /\ _parse_from_candump (capture_line "0.5" "can0" "1A" "AA" ++ "#xyz")
       (__init__ "capture.log" 1)
     = _parse_from_candump (capture_line "0.5" "can0" "1A" "AA")
         (__init__ "capture.log" 1).
Proof.
  apply (capture_trailing_text_ignored "0.5" "can0" "1A" "AA" "#xyz"
           (__init__ "capture.log" 1) 0.5);
    try reflexivity.
  discriminate.
Defined.

Lemma hexlify_upper_facts (data : bytes) :
  forallb upper_hex (hexlify_upper data) = true
  /\ Nat.even (List.length (hexlify_upper data)) = true
  /\ parse_hex_pairs (hexlify_upper data) = data.
Proof.
  induction data as [|c data (IH1 & IH2 & IH3)]; [repeat split|].
  destruct (pair_of_byte_round_trip c) as (_ & _ & H3 & H4).
  unfold hexlify_upper in *. cbn [flat_map]. unfold pair_of_byte in *.
  cbn [app forallb List.length parse_hex_pairs Nat.even] in *.
  apply andb_prop in H3 as [Ha H3]. apply andb_prop in H3 as [Hb _].
  injection H4 as H4. rewrite Ha, Hb, IH1, IH2, IH3, H4. repeat split.
Qed.

Lemma fold_hex_uint (d : Hexadecimal.uint) (acc : Z) :
  fold_left (fun a c => a * 16 + hex_digit_value c) (upper_hex_of_uint d) acc
  = hex_uint_value d acc.
Proof.
  revert acc. induction d; intro acc;
    cbn [upper_hex_of_uint fold_left hex_uint_value]; try reflexivity;
    now rewrite IHd.
Qed.

Lemma of_hex_uint_acc_value (d : Hexadecimal.uint) (acc : positive) :
  Z.pos (Pos.of_hex_uint_acc d acc) = hex_uint_value d (Z.pos acc).
Proof.
  revert acc. induction d; intro acc; cbn [Pos.of_hex_uint_acc hex_uint_value];
    try reflexivity; rewrite IHd; f_equal; lia.
Qed.

Lemma of_hex_uint_value (d : Hexadecimal.uint) :
  Z.of_N (Pos.of_hex_uint d) = hex_uint_value d 0.
Proof.
  induction d; cbn [Pos.of_hex_uint hex_uint_value]; try reflexivity;
    try exact IHd; cbn [Z.of_N]; now rewrite of_hex_uint_acc_value.
Qed.

Lemma upper_hex_of_uint_digits (d : Hexadecimal.uint) :
  forallb upper_hex (upper_hex_of_uint d) = true.
Proof.
  induction d; cbn [upper_hex_of_uint forallb]; try reflexivity; now rewrite IHd.
Qed.

Lemma hex_of_N_facts (n : N) :
  forallb upper_hex (hex_of_N n) = true /\ hex_of_N n <> []
  /\ parse_hex (hex_of_N n) = Z.of_N n.
Proof.
  unfold hex_of_N, parse_hex.
  pose proof (HexadecimalN.Unsigned.of_to n) as E. unfold N.of_hex_uint in E.
  split; [apply upper_hex_of_uint_digits|]. split.
  - destruct n as [|p]; [discriminate|]. intro N0.
    destruct (N.to_hex_uint (N.pos p)); try discriminate N0. discriminate E.
  - now rewrite fold_hex_uint, <- of_hex_uint_value, E.
Qed.

(** X13: decoding inverts the capture format.  The capture line of a
    frame, with its identifier and its bytes in upper-case hexadecimal,
    decodes to that frame, whatever the identifier and the payload, once
    the pacing sleep has gone through. *)
Theorem capture_round_trip (ts iface : str) (can_id : N) (data : bytes)
    (self : t) (abstime : float) :
  forallb dot_or_digit ts = true ->
  float_of_str ts = Return abstime ->
  no_char "010" iface = true ->
  sleep_accepts self abstime = true ->
  fst (_parse_from_candump (encode_capture ts iface can_id data) self)
  = Return (Z.of_N can_id, data).
Proof.
  intros Hts F Hif Hsleep.
  destruct (hex_of_N_facts can_id) as (I1 & I2 & I3).
  destruct (hexlify_upper_facts data) as (D1 & D2 & D3).
  pose proof (decode_capture_line_then ts iface (hex_of_N can_id) (hexlify_upper data)
                [] self abstime Hts F Hif I1 I2 D1 D2 I eq_refl eq_refl Hsleep) as E.
  rewrite app_nil_r in E. unfold encode_capture. now rewrite E, I3, D3.
Qed.

Lemma capture_round_trip_witness :
  fst (_parse_from_candump
         (encode_capture "0.5" "can0" 2047 ["000"; "255"; "016"]%char)
         (__init__ "capture.log" 1))
  = Return (Z.of_N 2047, ["000"; "255"; "016"]%char).
Proof.
  apply (capture_round_trip "0.5" "can0" 2047 ["000"; "255"; "016"]%char
           (__init__ "capture.log" 1) 0.5);
    reflexivity.
Defined.

(** *** Construction and whole replays *)

(** X14: the constructor never leaves a speed scale that is zero or
    negative: such a scale is replaced by 1, and any other is kept.  The
    clock starts at 0, no file is open and nothing has been slept. *)
Theorem init_speed_scale (file_path : str) (scale : float) :
  PrimFloat.eqb (speed_scale (__init__ file_path scale)) 0 = false
  /\ PrimFloat.leb (speed_scale (__init__ file_path scale)) 0 = false
  /\ speed_scale (__init__ file_path scale)
     = (if PrimFloat.eqb scale 0 || PrimFloat.leb scale 0 then 1%float else scale)
  /\ clock (__init__ file_path scale) = 0%float
  /\ file_object (__init__ file_path scale) = None
  /\ slept (__init__ file_path scale) = [].
Proof.
  unfold __init__. cbn [speed_scale clock file_object slept].
  destruct (PrimFloat.eqb scale 0 || PrimFloat.leb scale 0) eqn:G.
  - repeat split.
  - apply orb_false_elim in G as [G1 G2]. repeat split; assumption.
Qed.

Lemma float_of_str_raises (x : str) (e : exn) :
  float_of_str x = Raise e -> exists m, e = ValueError m.
Proof.
  unfold float_of_str.
  destruct (skipn _ x) as [|c frac]; [destruct (firstn _ x)|destruct (_ && _)];
    try discriminate; intro H; injection H as <-; eauto.
Qed.

Lemma time_sleep_raises (d : float) (e : exn) :
  time_sleep d = Raise e ->
  exists m, e = ValueError m \/ e = OverflowError m.
Proof.
  unfold time_sleep.
  destruct (PrimFloat.is_nan d); [intro H; injection H as <-; eauto|].
  destruct (negb _); [intro H; injection H as <-; eauto|].
  destruct (PrimFloat.ltb d 0); [intro H; injection H as <-; eauto|discriminate].
Qed.

Lemma int_base16_raises (x : str) (e : exn) :
  int_base16 x = Raise e -> exists m, e = ValueError m.
Proof.
  unfold int_base16. destruct (PyLong_FromString 16 x); [discriminate|].
  intro H. injection H as <-. eauto.
Qed.

(** The exceptions of the decoder. *)
Lemma _parse_from_candump_raises (line : str) (self : t) (e : exn) :
  fst (_parse_from_candump line self) = Raise e ->
  (exists m, e = InvalidFrame m) \/ (exists m, e = ValueError m)
  \/ (exists m, e = OverflowError m)
  \/ (PrimFloat.eqb (speed_scale self) 0 = true /\ exists m, e = ZeroDivisionError m).
Proof.
  rewrite _parse_from_candump_eq.
  destruct (groups line) as [[|a [|i [|d [|]]]]|]; cbn [fst];
    try (intro H; injection H as <-; eauto).
  destruct (float_of_str a) as [abstime|e0] eqn:F; cbn [fst].
  2:{ intro H. injection H as <-. destruct (float_of_str_raises _ _ F) as [m ->]. eauto. }
  unfold float_div. destruct (PrimFloat.eqb (speed_scale self) 0) eqn:Z; cbn [fst].
  { intro H. injection H as <-. eauto 6. }
  destruct (time_sleep _) as [[]|e0] eqn:S; cbn [fst].
  2:{ intro H. injection H as <-.
      destruct (time_sleep_raises _ _ S) as [m [-> | ->]]; eauto 6. }
  cbv zeta. destruct (int_base16 i) as [can_id|e0] eqn:B; cbn [fst].
  2:{ intro H. injection H as <-. destruct (int_base16_raises _ _ B) as [m ->]. eauto. }
  destruct (bytes_fromhex d) as [data|e0] eqn:X; cbn [fst]; [discriminate|].
  destruct (bytes_fromhex_raises _ _ X) as [m ->]. cbn [fst].
  intro H. injection H as <-. eauto.
Qed.

Lemma get_message_cases (self : t) :
  get_message self
  = match file_object self with
    | None =>
        (Raise (AttributeError "'NoneType' object has no attribute 'readline'"), self)
    | Some text =>
        match fst (readline text) with
        | [] => (Raise EOFError, with_file self (snd (readline text)))
        | _ :: _ =>
            _parse_from_candump (fst (readline text))
              (with_file self (snd (readline text)))
        end
    end.
Proof.
  unfold get_message, bindM, get, set_file_object, raise, with_file.
  destruct (file_object self) as [text|]; [|reflexivity].
  destruct (readline text) as [[|c line] rest]; reflexivity.
Qed.

(** What a call of [get_message] does to the object besides advancing in
    the file. *)
Lemma get_message_effect (self : t) :
  speed_scale (snd (get_message self)) = speed_scale self
  /\ (slept (snd (get_message self)) = slept self
      \/ exists d, proper_duration d = true
                   /\ slept (snd (get_message self)) = slept self ++ [d]).
Proof.
  rewrite get_message_cases. destruct (file_object self) as [text|];
    [|split; [reflexivity | now left]].
  destruct (fst (readline text)) as [|c line]; [split; [reflexivity | now left]|].
  set (self1 := with_file self (snd (readline text))).
  destruct (_parse_from_candump_effect (c :: line) self1) as [->|(t0 & _ & S & ->)].
  - split; [reflexivity | now left].
  - split; [reflexivity|]. right. exists (pacing_delay self1 t0).
    split; [now apply time_sleep_accepted | reflexivity].
Qed.

Lemma get_message_no_zero_division (self : t) :
  PrimFloat.eqb (speed_scale self) 0 = false ->
  is_zero_division (fst (get_message self)) = false.
Proof.
  intro Z. rewrite get_message_cases. destruct (file_object self) as [text|];
    [|reflexivity].
  destruct (fst (readline text)) as [|c line]; [reflexivity|].
  set (self1 := with_file self (snd (readline text))).
  destruct (fst (_parse_from_candump (c :: line) self1)) as [x|e] eqn:E; [reflexivity|].
  destruct (_parse_from_candump_raises _ _ _ E)
    as [[m ->]|[[m ->]|[[m ->]|[Z' _]]]]; try reflexivity.
  unfold self1 in Z'. cbn [with_file speed_scale] in Z'. congruence.
Qed.

Lemma replay_step (n : nat) (self : t) :
  replay (S n) self
  = (fst (get_message self) :: fst (replay n (snd (get_message self))),
     snd (replay n (snd (get_message self)))).
Proof.
  cbn [replay]. destruct (get_message self) as [r self1]. cbn [fst snd].
  now destruct (replay n self1).
Qed.

(** X15: on an object made by the constructor, whatever the scale asked
    for and whatever the file holds, no call of [get_message] ever raises
    [ZeroDivisionError]. *)
Theorem replay_never_divides_by_zero (n : nat) (file_path text : str) (scale : float) :
  existsb is_zero_division
    (fst (replay n (snd (open text (__init__ file_path scale))))) = false.
Proof.
  assert (G : forall n self, PrimFloat.eqb (speed_scale self) 0 = false ->
                existsb is_zero_division (fst (replay n self)) = false).
  { clear. induction n as [|n IH]; intros self Z; [reflexivity|].
    rewrite replay_step. cbn [fst existsb].
    rewrite (get_message_no_zero_division self Z). apply IH.
    destruct (get_message_effect self) as [-> _]. exact Z. }
  apply G. unfold open, set_file_object. cbn [snd speed_scale].
  unfold __init__. cbn [speed_scale].
  destruct (PrimFloat.eqb scale 0 || PrimFloat.leb scale 0) eqn:Q; [reflexivity|].
  now apply orb_false_elim in Q.
Qed.

Lemma with_file_after_sleep (self : t) (rest : str) (t0 d : float) :
  after_sleep (with_file self rest) t0 d = with_file (after_sleep self t0 d) rest.
Proof. reflexivity. Qed.

(** The decoder does not look at the file. *)
Lemma _parse_from_candump_with_file (line rest : str) (self : t) :
  _parse_from_candump line (with_file self rest)
  = (fst (_parse_from_candump line self),
     with_file (snd (_parse_from_candump line self)) rest).
Proof.
  rewrite !_parse_from_candump_eq.
  destruct (groups line) as [[|a [|i [|d [|]]]]|]; try reflexivity.
  destruct (float_of_str a) as [abstime|]; [|reflexivity].
  cbn [with_file clock speed_scale].
  destruct (float_div _ _) as [delay|]; [|reflexivity].
  destruct (time_sleep delay) as [[]|]; [|reflexivity]. cbv zeta.
  destruct (int_base16 i); [|reflexivity].
  destruct (bytes_fromhex d) as [|[]]; reflexivity.
Qed.

Lemma with_file_twice (self : t) (r1 r2 : str) :
  with_file (with_file self r1) r2 = with_file self r2.
Proof. reflexivity. Qed.

Lemma replay_lines (ls : list str) (rest : str) (self : t) :
  forallb (no_char "010") ls = true ->
  file_object self = Some (text_of_lines ls ++ rest) ->
  replay (List.length ls) self
  = (fst (decode_lines ls self),
     match ls with
     | [] => self
     | _ :: _ => with_file (snd (decode_lines ls self)) rest
     end).
Proof.
  revert self. induction ls as [|l ls IH]; intros self Hl Hf; [reflexivity|].
  cbn [forallb] in Hl. apply andb_prop in Hl as [Hl Hls].
  cbn [text_of_lines flat_map] in Hf. fold (text_of_lines ls) in Hf.
  rewrite <- !app_assoc in Hf. cbn [app] in Hf.
  cbn [List.length]. rewrite replay_step.
  rewrite (get_message_line l (text_of_lines ls ++ rest) self Hl Hf).
  rewrite _parse_from_candump_with_file. cbn [fst snd decode_lines].
  destruct (_parse_from_candump l self) as [r self1]. cbn [fst snd].
  rewrite (IH (with_file self1 (text_of_lines ls ++ rest)) Hls eq_refl).
  assert (D : forall ls0 s0 r0,
             decode_lines ls0 (with_file s0 r0)
             = (fst (decode_lines ls0 s0), with_file (snd (decode_lines ls0 s0)) r0)).
  { clear. induction ls0 as [|x ls0 IH0]; intros s0 r0; [reflexivity|].
    cbn [decode_lines]. rewrite _parse_from_candump_with_file.
    destruct (_parse_from_candump x s0) as [rx sx]. cbn [fst snd].
    rewrite IH0. now destruct (decode_lines ls0 sx). }
  destruct ls as [|l' ls']; [reflexivity|].
  rewrite D. now destruct (decode_lines (l' :: ls') self1) as [rs self2].
Qed.

(** X17: replaying a file is decoding its lines in order, each on the
    object the line before left: as many calls of [get_message] as the
    file has lines give the outcomes of the decoder on these lines, blank
    and malformed ones included, and reach the end of the file, where the
    next call raises [EOFError]. *)
Theorem replay_decodes_every_line (ls : list str) (self : t) :
  forallb (no_char "010") ls = true ->
  file_object self = Some (text_of_lines ls) ->
  fst (replay (List.length ls) self) = fst (decode_lines ls self)
  /\ file_object (snd (replay (List.length ls) self)) = Some []
  /\ fst (get_message (snd (replay (List.length ls) self))) = Raise EOFError.
Proof.
  intros Hl Hf.
  assert (Hf' : file_object self = Some (text_of_lines ls ++ []))
    by now rewrite app_nil_r.
  rewrite (replay_lines ls [] self Hl Hf'). cbn [fst snd].
  split; [reflexivity|].
  destruct ls as [|l ls].
  - cbn [text_of_lines flat_map] in Hf. split; [exact Hf|].
    rewrite get_message_cases, Hf. reflexivity.
  - split; [reflexivity|]. rewrite get_message_cases. reflexivity.
Qed.

Lemma replay_decodes_every_line_witness :
  fst (replay (List.length (map list_ascii_of_string ["(0.0) can0 123#AA"; ""; "(1.0) can0 124#B"]))
         (mk "capture.log"
            (Some (text_of_lines
                     (map list_ascii_of_string ["(0.0) can0 123#AA"; ""; "(1.0) can0 124#B"])))
            1 0 []))
  = fst (decode_lines (map list_ascii_of_string ["(0.0) can0 123#AA"; ""; "(1.0) can0 124#B"])
           (mk "capture.log"
              (Some (text_of_lines
                       (map list_ascii_of_string ["(0.0) can0 123#AA"; ""; "(1.0) can0 124#B"])))
              1 0 []))
  /\ file_object
       (snd (replay (List.length (map list_ascii_of_string ["(0.0) can0 123#AA"; ""; "(1.0) can0 124#B"]))
               (mk "capture.log"
                  (Some (text_of_lines
                           (map list_ascii_of_string ["(0.0) can0 123#AA"; ""; "(1.0) can0 124#B"])))
                  1 0 [])))
     = Some []
  /\ fst (get_message
            (snd (replay (List.length (map list_ascii_of_string ["(0.0) can0 123#AA"; ""; "(1.0) can0 124#B"]))
                    (mk "capture.log"
                       (Some (text_of_lines
                                (map list_ascii_of_string ["(0.0) can0 123#AA"; ""; "(1.0) can0 124#B"])))
                       1 0 []))))
     = Raise EOFError.
Proof.
  apply (replay_decodes_every_line
           (map list_ascii_of_string ["(0.0) can0 123#AA"; ""; "(1.0) can0 124#B"])
           (mk "capture.log"
              (Some (text_of_lines
                       (map list_ascii_of_string ["(0.0) can0 123#AA"; ""; "(1.0) can0 124#B"])))
              1 0 []));
    reflexivity.
Defined.

(** *** Which timestamps convert, and when the file ends *)

Lemma skipn_run_head (p : ascii -> bool) (x r : str) (c : ascii) :
  skipn (run_length p x) x = c :: r -> p c = false.
Proof.
  induction x as [|d x IH]; [discriminate|]. cbn [run_length].
  destruct (p d) eqn:Pd; cbn [skipn]; [exact IH|].
  intro H. now injection H as <- _.
Qed.

Lemma existsb_decimal (l : str) :
  forallb is_decimal l = true ->
  existsb is_decimal l = negb (List.length l =? 0)%nat.
Proof.
  destruct l as [|c l]; [reflexivity|]. cbn [forallb existsb List.length].
  intro H. apply andb_prop in H as [-> _]. reflexivity.
Qed.

Lemma count_dots_not_decimal (l : str) :
  forallb dot_or_digit l = true -> forallb is_decimal l = false ->
  (1 <= count_occ ascii_dec l "."%char)%nat.
Proof.
  induction l as [|c l IH]; [discriminate|]. cbn [forallb count_occ].
  intros H N. apply andb_prop in H as [Hc Hl].
  destruct (ascii_dec c "."%char) as [->|Hne]; [lia|].
  unfold dot_or_digit in Hc. fold (is_decimal c) in Hc.
  destruct (is_decimal c) eqn:Dc.
  - cbn [andb] in N. now apply IH.
  - rewrite orb_false_r in Hc. unfold chr_eqb in Hc.
    apply Ascii.eqb_eq in Hc. now elim Hne.
Qed.

(** [float] takes a string of dots and digits if and only if it has at
    most one dot and at least one digit. *)
Lemma float_of_str_accepts (x : str) :
  forallb dot_or_digit x = true ->
  returns (float_of_str x) = float_literal x.
Proof.
  intro Hx. unfold float_of_str, float_literal, count_char.
  pose proof (firstn_run_length is_decimal x) as Hip.
  pose proof (skipn_run_head is_decimal x) as Hhead.
  rewrite <- (firstn_skipn (run_length is_decimal x) x) in Hx.
  rewrite forallb_app in Hx. apply andb_prop in Hx as [_ Hrest].
  replace (count_occ ascii_dec x "."%char)
    with (count_occ ascii_dec (firstn (run_length is_decimal x) x
                                 ++ skipn (run_length is_decimal x) x) "."%char)
    by now rewrite firstn_skipn.
  replace (existsb is_decimal x)
    with (existsb is_decimal (firstn (run_length is_decimal x) x
                                ++ skipn (run_length is_decimal x) x))
    by now rewrite firstn_skipn.
  rewrite count_occ_app, existsb_app, (count_dots_decimal _ Hip),
    (existsb_decimal _ Hip).
  destruct (skipn (run_length is_decimal x) x) as [|c frac].
  - cbn [count_occ existsb]. rewrite orb_false_r.
    now destruct (firstn (run_length is_decimal x) x).
  - specialize (Hhead frac c eq_refl).
    cbn [forallb] in Hrest. apply andb_prop in Hrest as [Hc Hfrac].
    unfold dot_or_digit in Hc. fold (is_decimal c) in Hc. rewrite Hhead in Hc.
    rewrite orb_false_r in Hc. rewrite Hc. cbn [andb existsb count_occ].
    rewrite Hhead. cbn [orb].
    unfold chr_eqb in Hc. apply Ascii.eqb_eq in Hc. subst c.
    destruct (ascii_dec "." ".") as [_|N]; [|now elim N].
    destruct (forallb is_decimal frac) eqn:Dfrac.
    + rewrite (count_dots_decimal _ Dfrac), (existsb_decimal _ Dfrac).
      cbn [andb Nat.add Nat.leb].
      destruct (firstn (run_length is_decimal x) x), frac; reflexivity.
    + pose proof (count_dots_not_decimal frac Hfrac Dfrac) as K.
      cbn [andb]. destruct (count_occ ascii_dec frac "."%char) as [|k]; [lia|].
      reflexivity.
Qed.

(** X18: a line that matches the pattern makes the call raise the
    [ValueError] of the conversion to a float exactly when its timestamp
    group is not a number: when it holds more than one dot or no digit, as
    in [(..)] or [(.)]. *)
Theorem timestamp_error_iff (line : str) (self : t)
    (abstime hex_can_id hex_can_data : str) :
  groups line = Some [abstime; hex_can_id; hex_can_data] ->
  (fst (_parse_from_candump line self)
   = Raise (ValueError ("could not convert string to float: '" ++ abstime ++ "'"))
   <-> float_literal abstime = false).
Proof.
  intro G. unfold groups in G.
  destruct (MSG_RE_groups _ _ G) as (g1 & g2 & g3 & E & H1 & _ & H2 & N2 & _).
  injection E as <- <- <-. fold (groups line) in G.
  pose proof (float_of_str_accepts abstime H1) as A.
  rewrite _parse_from_candump_eq, G. split.
  - intro R. rewrite <- A. destruct (float_of_str abstime) as [t0|]; [|reflexivity].
    exfalso. revert R. unfold float_div.
    destruct (PrimFloat.eqb (speed_scale self) 0); cbn [fst]; [discriminate|].
    unfold time_sleep. destruct (PrimFloat.is_nan _); cbn [fst]; [discriminate|].
    destruct (negb _); cbn [fst]; [discriminate|].
    destruct (PrimFloat.ltb _ _); cbn [fst]; [discriminate|].
    cbv zeta. rewrite (int_base16_upper_hex _ H2 N2).
    destruct (bytes_fromhex hex_can_data) as [|e] eqn:B; cbn [fst]; [discriminate|].
    destruct (bytes_fromhex_raises _ _ B) as [m ->]. discriminate.
  - intro L. rewrite L in A. unfold float_of_str in *.
    destruct (skipn _ abstime) as [|c frac];
      [destruct (firstn _ abstime)|destruct (_ && _)];
      try discriminate A; reflexivity.
Qed.

Lemma timestamp_error_iff_witness :
  fst (_parse_from_candump "(.) can0 123#AA" (__init__ "capture.log" 1))
  = Raise (ValueError ("could not convert string to float: '" ++ "." ++ "'"))
  <-> float_literal "." = false.
Proof.
  apply (timestamp_error_iff "(.) can0 123#AA" (__init__ "capture.log" 1)
           "." "123" "AA").
  reflexivity.
Defined.

Lemma readline_empty (text : str) : fst (readline text) = [] -> text = [].
Proof.
  destruct text as [|c text]; [reflexivity|]. cbn [readline].
  destruct (chr_eqb c "010"); [discriminate|].
  destruct (readline text). discriminate.
Qed.

(** X19: [get_message] raises [EOFError] exactly when the file is open and
    nothing is left to read; no line, blank or malformed, is taken for
    the end of the file. *)
Theorem eof_iff_nothing_left (self : t) :
  fst (get_message self) = Raise EOFError <-> file_object self = Some [].
Proof.
  rewrite get_message_cases. split.
  - destruct (file_object self) as [text|]; [|discriminate].
    destruct (fst (readline text)) as [|c line] eqn:R.
    + intros _. now rewrite (readline_empty _ R).
    + intro H. exfalso.
      destruct (_parse_from_candump_raises _ _ _ H)
        as [[m N]|[[m N]|[[m N]|[_ [m N]]]]]; discriminate N.
  - intros ->. reflexivity.
Qed.
